(** * covid19-eda: the state-level metrics notebook (us-state-data.ipynb)

    A shallow embedding of the notebook's join-and-metrics cells:

    - the [firstcase] query (first date with a reported positive count,
      per state);
    - the [data] query (virus rows inner-joined to census rows, left-joined
      to [firstcase], counts coalesced to zero);
    - the pandas cells that add the elapsed-days, per-100k, multiplier and
      adjusted-rate columns;
    - the state lookup of [get_census_data].

    Tables are lists of rows (records).  Dates are day numbers ([Z]): the
    notebook's dates are whole days, the text form SQLite compares
    (YYYY-MM-DD ...) is ordered like the day number, and the
    strftime / to_datetime round trip of the [data] cells is the identity on
    whole days.  Integer columns are [Z]; a count that may be missing is an
    [option Z].  State codes, dates and census estimates are never missing
    in the tables as modelled.  Float columns are the kernel's binary64
    floats, the very arithmetic of numpy's float64; pandas' null marker of
    a float column is NaN.

    Two ranges bound the tables as modelled.  Integers are int64 values.
    The dates of a case table lie within a span that a pandas Timedelta
    holds, 106751 days: beyond it the subtraction of the two date columns
    itself raises OverflowError, before any of the cells below it runs.

    The pandas cells work on whole columns.  Their arithmetic is
    elementwise, so it is written here on one row; the only operation that
    can raise, the integer cast of the elapsed days, raises for the column
    as soon as one element is null, which is what [mapM] does with the
    row function. *)

From Stdlib Require Import ZArith List String Bool Lia.
From Stdlib Require Import Floats Uint63.
From Stdlib Require Import Permutation.
Import ListNotations.

Open Scope Z_scope.

(** ** Exceptions and results *)

(** The exceptions the embedded cells can raise:
    - [ValueError]: [astype(int)] on a float column that holds NaN
      ("Cannot convert non-finite values (NA or inf) to integer");
    - [AttributeError]: [.abbr] / [.name] on the [None] that
      [us.states.lookup] returns for an unknown code;
    - [PandaSQLException]: a query that names a table missing from the
      namespace handed to [sqldf];
    - [KeyError]: a column looked up by a label the frame does not have. *)
Inductive Error : Set :=
| ValueError
| AttributeError
| PandaSQLException
| KeyError.

Definition Result (A : Type) : Type := (Error + A)%type.

Definition ret {A : Type} (a : A) : Result A := inr a.

Definition raise {A : Type} (e : Error) : Result A := inl e.

Definition bind {A B : Type} (m : Result A) (k : A -> Result B) : Result B :=
  match m with
  | inl e => inl e
  | inr a => k a
  end.

Notation "x <- m ;; k" := (bind m (fun x => k))
  (at level 61, m at next level, right associativity).

(** A list comprehension / column operation whose element function may
    raise: the first exception aborts the whole column. *)
Fixpoint mapM {A B : Type} (f : A -> Result B) (l : list A) : Result (list B) :=
  match l with
  | [] => ret []
  | a :: l' => b <- f a ;; bs <- mapM f l' ;; ret (b :: bs)
  end.

(** ** Tables *)

(** [virus_df]: one row per (state, day).  [state] is the postal
    abbreviation; a count the source did not report is null. *)
Module Virus.
Record row : Set := mk {
  state : string;
  obs_dt : Z;
  positive : option Z;
  negative : option Z;
  pending : option Z;
  hospitalized : option Z;
  death : option Z;
  total : option Z
}.
End Virus.

(** The ten census estimates that the [data] query only passes through. *)
Record Estimates : Set := mkEstimates {
  median_age_male : float;
  median_age_female : float;
  race_white_alone : Z;
  race_afr_alone : Z;
  race_asian_alone : Z;
  hisp_not_hisp : Z;
  transport_drive_alone : Z;
  transport_public : Z;
  transport_walk : Z;
  healthins_none : Z
}.

(** [census_df]: one row per state.  [state] is the numeric (FIPS) code the
    census API keys by; [state_cd] and [state_name] are added by
    [get_census_data]. *)
Module Census.
Record raw : Set := mkRaw {
  raw_state : string;
  raw_population_total : Z;
  raw_estimates : Estimates
}.

Record row : Set := mk {
  state : string;
  population_total : Z;
  estimates : Estimates;
  state_cd : string;
  state_name : string
}.
End Census.

(** The [firstcase] table: [state, obs_dt]. *)
Module FirstCase.
Record row : Set := mk {
  state : string;
  obs_dt : Z
}.
End FirstCase.

(** A row of [data] as the join query returns it. *)
Module Sql.
Record row : Set := mk {
  state_name : string;
  state : string;
  obs_dt : Z;
  first_obs_dt : option Z;
  positive : Z;
  negative : Z;
  pending : Z;
  hospitalized : Z;
  death : Z;
  total : Z;
  population : Z;
  population_total : Z;
  estimates : Estimates
}.
End Sql.

(** A row of [data] after the metric cells: the query's columns and the
    seven added ones. *)
Module Metric.
Record row : Set := mk {
  sql : Sql.row;
  time_elapsed_since_firstpos : option Z;
  days_elapsed_since_firstpos : Z;
  pos_per100k : float;
  death_per100k : float;
  adj_multiplier : float;
  adj_pos_per100k : float;
  adj_death_per100k : float
}.
End Metric.

(** ** Float columns *)

(** An integer column entering float arithmetic (int64 to float64): the
    nearest float, exact below 2^53.  The argument of [of_uint63] is the
    magnitude, which fits for every int64 but the least one, -2^63. *)
Definition Z2float (z : Z) : float :=
  match z with
  | Z0 => PrimFloat.zero
  | Zpos _ => PrimFloat.of_uint63 (Uint63.of_Z z)
  | Zneg p => PrimFloat.opp (PrimFloat.of_uint63 (Uint63.of_Z (Zpos p)))
  end.

(** pandas' [isnull] on a float cell. *)
Definition isnull (x : float) : bool := PrimFloat.is_nan x.

(** SQL's [coalesce(x, 0)]. *)
Definition coalesce (x : option Z) (d : Z) : Z :=
  match x with
  | Some v => v
  | None => d
  end.

(** SQL's [x is not null]. *)
Definition is_not_null {A : Type} (x : option A) : bool :=
  match x with
  | Some _ => true
  | None => false
  end.

(** ** The [firstcase] query

    select state, min(obs_dt) as obs_dt from virus_df
    where positive is not null group by 1 *)

(** One step of the aggregation: fold the row's date into its group, or
    open a new group. *)
Fixpoint agg_min (acc : list FirstCase.row) (k : string) (d : Z)
  : list FirstCase.row :=
  match acc with
  | [] => [FirstCase.mk k d]
  | f :: acc' =>
      if String.eqb (FirstCase.state f) k
      then FirstCase.mk k (Z.min (FirstCase.obs_dt f) d) :: acc'
      else f :: agg_min acc' k d
  end.

Definition group_by_min (t : list Virus.row) : list FirstCase.row :=
  fold_left (fun acc s => agg_min acc (Virus.state s) (Virus.obs_dt s)) t [].

Definition firstcase (virus_df : list Virus.row) : list FirstCase.row :=
  group_by_min (filter (fun s => is_not_null (Virus.positive s)) virus_df).

(** ** The [data] query *)

(** from virus_df as s inner join census_df as c on s.state = c.state_cd *)
Definition inner_join (virus_df : list Virus.row) (census_df : list Census.row)
  : list (Virus.row * Census.row) :=
  flat_map
    (fun s =>
       map (fun c => (s, c))
         (filter (fun c => String.eqb (Virus.state s) (Census.state_cd c))
            census_df))
    virus_df.

(** left join firstcase as f on s.state = f.state: every left row is kept,
    with a null [f] when no row of [firstcase] matches. *)
Definition left_join (sc : list (Virus.row * Census.row))
  (fc : list FirstCase.row)
  : list (Virus.row * Census.row * option FirstCase.row) :=
  flat_map
    (fun p =>
       match
         filter (fun f => String.eqb (Virus.state (fst p)) (FirstCase.state f))
           fc
       with
       | [] => [(p, None)]
       | m => map (fun f => (p, Some f)) m
       end)
    sc.

(** The select list. *)
Definition select (t : Virus.row * Census.row * option FirstCase.row)
  : Sql.row :=
  let '(s, c, f) := t in
  {| Sql.state_name := Census.state_name c;
     Sql.state := Virus.state s;
     Sql.obs_dt := Virus.obs_dt s;
     Sql.first_obs_dt := option_map FirstCase.obs_dt f;
     Sql.positive := coalesce (Virus.positive s) 0;
     Sql.negative := coalesce (Virus.negative s) 0;
     Sql.pending := coalesce (Virus.pending s) 0;
     Sql.hospitalized := coalesce (Virus.hospitalized s) 0;
     Sql.death := coalesce (Virus.death s) 0;
     Sql.total := coalesce (Virus.total s) 0;
     Sql.population := Census.population_total c;
     Sql.population_total := Census.population_total c;
     Sql.estimates := Census.estimates c |}.

Definition from_joins (virus_df : list Virus.row)
  (census_df : list Census.row) (fc : list FirstCase.row)
  : list (Virus.row * Census.row * option FirstCase.row) :=
  left_join (inner_join virus_df census_df) fc.

Definition data_sql (virus_df : list Virus.row) (census_df : list Census.row)
  (fc : list FirstCase.row) : list Sql.row :=
  map select (from_joins virus_df census_df fc).

(** ** The metric cells *)

(** data['obs_dt'] - data['first_obs_dt']: NaT where the baseline is null.
    The difference is one a Timedelta holds, for dates within the span
    stated at the head of the file. *)
Definition time_elapsed_since_firstpos (r : Sql.row) : option Z :=
  option_map (fun f => Sql.obs_dt r - f) (Sql.first_obs_dt r).

(** .astype('timedelta64[D]').astype(int): the day count as a float column
    (NaN for NaT), then the integer cast, which raises on NaN. *)
Definition astype_int (x : option Z) : Result Z :=
  match x with
  | Some d => ret d
  | None => raise ValueError
  end.

(** 100000.0 * (data[count] / data['population']) *)
Definition per100k (count population : Z) : float :=
  (100000 * (Z2float count / Z2float population))%float.

(** data.days_elapsed_since_firstpos / (1.0 + data.days_elapsed_since_firstpos) *)
Definition multiplier (days : Z) : float :=
  (Z2float days / (1 + Z2float days))%float.

(** The seven columns the cells add, on one row:
    time_elapsed_since_firstpos, days_elapsed_since_firstpos, pos_per100k,
    death_per100k, then adj_multiplier, adj_pos_per100k = pos_per100k *
    adj_multiplier and adj_death_per100k = death_per100k * adj_multiplier. *)
Definition metric_row (r : Sql.row) : Result Metric.row :=
  let time_elapsed := time_elapsed_since_firstpos r in
  days <- astype_int time_elapsed ;;
  let pos := per100k (Sql.positive r) (Sql.population r) in
  let dth := per100k (Sql.death r) (Sql.population r) in
  let adj := multiplier days in
  ret {| Metric.sql := r;
         Metric.time_elapsed_since_firstpos := time_elapsed;
         Metric.days_elapsed_since_firstpos := days;
         Metric.pos_per100k := pos;
         Metric.death_per100k := dth;
         Metric.adj_multiplier := adj;
         Metric.adj_pos_per100k := (pos * adj)%float;
         Metric.adj_death_per100k := (dth * adj)%float |}.

Definition metric_cells (data : list Sql.row) : Result (list Metric.row) :=
  mapM metric_row data.

(** The cells from [firstcase] to the adjusted rates, as one function of the
    two loaded tables. *)
Definition pipeline (virus_df : list Virus.row) (census_df : list Census.row)
  : Result (list Metric.row) :=
  metric_cells (data_sql virus_df census_df (firstcase virus_df)).

(** ** The notebook namespace

    Both queries read their tables from [globals()], and each cell assigns
    its result to a global name.  [firstcase] and [data] are unbound until
    their cell has run. *)
Module Globals.
Record t : Type := mk {
  virus_df : list Virus.row;
  census_df : list Census.row;
  firstcase : option (list FirstCase.row);
  data : option (list Metric.row)
}.
End Globals.

(** firstcase = sqldf(sql, globals()) *)
Definition cell_firstcase (g : Globals.t) : Result Globals.t :=
  ret {| Globals.virus_df := Globals.virus_df g;
         Globals.census_df := Globals.census_df g;
         Globals.firstcase := Some (firstcase (Globals.virus_df g));
         Globals.data := Globals.data g |}.

(** data = sqldf(sql, globals()), followed by the cells that add the
    metric columns to [data]. *)
Definition cell_data (g : Globals.t) : Result Globals.t :=
  fc <- match Globals.firstcase g with
        | Some fc => ret fc
        | None => raise PandaSQLException
        end ;;
  rows <- metric_cells
            (data_sql (Globals.virus_df g) (Globals.census_df g) fc) ;;
  ret {| Globals.virus_df := Globals.virus_df g;
         Globals.census_df := Globals.census_df g;
         Globals.firstcase := Globals.firstcase g;
         Globals.data := Some rows |}.

Definition run_all (g : Globals.t) : Result Globals.t :=
  g1 <- cell_firstcase g ;; cell_data g1.

(** ** State lookup in [get_census_data] *)

(** What the notebook reads of a [us.states] state object. *)
Record State : Set := mkState {
  abbr : string;
  name : string
}.

Section StateLookup.

(** [us.states.lookup]: the state for a code, [None] for an unknown one.
    The reference table belongs to the [us] package. *)
Variable lookup : string -> option State.

(** us.states.lookup(fips).attr *)
Definition lookup_attr {A : Type} (attr : State -> A) (fips : string)
  : Result A :=
  match lookup fips with
  | Some st => ret (attr st)
  | None => raise AttributeError
  end.

(** data['state_cd'] = [us.states.lookup(fips).abbr for fips in data['state']]
    data['state_name'] = [us.states.lookup(fips).name for fips in data['state']]

    The two comprehensions, over the column data['state'] of a census
    result that has rows.  A result without rows makes a frame without
    columns; [data_cleanup] below adds that case. *)
Definition add_state_columns (data : list Census.raw)
  : Result (list Census.row) :=
  state_cd <- mapM (lookup_attr abbr) (map Census.raw_state data) ;;
  state_name <- mapM (lookup_attr name) (map Census.raw_state data) ;;
  ret (map
         (fun x =>
            {| Census.state := Census.raw_state (fst x);
               Census.population_total := Census.raw_population_total (fst x);
               Census.estimates := Census.raw_estimates (fst x);
               Census.state_cd := fst (snd x);
               Census.state_name := snd (snd x) |})
         (combine data (combine state_cd state_name))).

End StateLookup.

(** ** Auxiliary definitions for the proofs *)

(** The date [firstcase] holds for a state, if any. *)
Fixpoint first_obs (fc : list FirstCase.row) (k : string) : option Z :=
  match fc with
  | [] => None
  | f :: fc' =>
      if String.eqb (FirstCase.state f) k
      then Some (FirstCase.obs_dt f)
      else first_obs fc' k
  end.

(** What the aggregation holds for a state: the least date of the state's
    rows, and nothing when the state has no row. *)
Definition is_min_date (t : list Virus.row) (k : string) (o : option Z) : Prop :=
  match o with
  | Some d =>
      (exists s, In s t /\ Virus.state s = k /\ Virus.obs_dt s = d) /\
      (forall s, In s t -> Virus.state s = k -> d <= Virus.obs_dt s)
  | None => forall s, In s t -> Virus.state s <> k
  end.

(** The joined row of a pair of the inner join, given [firstcase]. *)
Definition attach (fc : list FirstCase.row) (p : Virus.row * Census.row)
  : Virus.row * Census.row * option FirstCase.row :=
  (p, option_map (FirstCase.mk (Virus.state (fst p)))
        (first_obs fc (Virus.state (fst p)))).

(** A case row whose state is the [state_cd] of some census row. *)
Definition known_state (census_df : list Census.row) (s : Virus.row) : bool :=
  existsb (fun c => String.eqb (Virus.state s) (Census.state_cd c)) census_df.

(** The namespace a complete run leaves behind, given the finished table. *)
Definition after_run (g : Globals.t) (rows : list Metric.row) : Globals.t :=
  {| Globals.virus_df := Globals.virus_df g;
     Globals.census_df := Globals.census_df g;
     Globals.firstcase := Some (firstcase (Globals.virus_df g));
     Globals.data := Some rows |}.

(** A case row that takes part in the [firstcase] minimum. *)
Definition qualifies (s : Virus.row) : Prop := Virus.positive s <> None.

(** A float cell that holds no number: an infinity or NaN. *)
Definition not_a_number (x : float) : Prop :=
  x = infinity \/ x = neg_infinity \/ x = nan.

(** The sign bit [b] of a float in the form its specification gives it;
    NaN has none. *)
Definition has_sign (b : bool) (x : spec_float) : Prop :=
  match x with
  | S754_zero s | S754_infinity s | S754_finite s _ _ => s = b
  | S754_nan => True
  end.

(** The largest whole-day count a pandas Timedelta holds
    (Timedelta.max.days). *)
Definition max_timedelta_days : Z := 106751.

(** The bounds on the multiplier, as a boolean test on one day count. *)
Definition multiplier_in_range (days : Z) : bool :=
  let m := multiplier days in
  (0 <=? m)%float && (m <? 1)%float && Bool.eqb (m =? 0)%float (days =? 0).

(** A boolean test on the [n] consecutive day counts from [d] on. *)
Fixpoint all_from (test : Z -> bool) (n : nat) (d : Z) : bool :=
  match n with
  | O => true
  | S n' => test d && all_from test n' (d + 1)
  end.

(** ** Sample tables *)

Definition no_estimates : Estimates :=
  mkEstimates 0 0 0 0 0 0 0 0 0 0.

Definition case_of (st : string) (day : Z) (pos : option Z) : Virus.row :=
  Virus.mk st day pos None None None None pos.

Definition census_of (fips cd nm : string) (pop : Z) : Census.row :=
  Census.mk fips pop no_estimates cd nm.

(** 2020-03-10 as a day number (days since 1970-01-01). *)
Definition d20200310 : Z := 18331.

Definition wyoming : Census.row := census_of "56" "WY" "Wyoming" 500000.

(** A state whose first record, dated before its first reported count,
    has no positive count. *)
Definition unreported_then_reported (gap : Z) : list Virus.row :=
  [case_of "WY" (d20200310 - gap) None; case_of "WY" d20200310 (Some 10)].

(** The two days of the worked example: 10 positives on the first
    reporting day, 50 five days later. *)
Definition two_reports : list Virus.row :=
  [case_of "WY" d20200310 (Some 10); case_of "WY" (d20200310 + 5) (Some 50)].

(** A state none of whose records has a positive count. *)
Definition never_reported : list Virus.row :=
  [case_of "WY" d20200310 None].

(** A census row with a zero population estimate. *)
Definition unpopulated : Census.row := census_of "56" "WY" "Wyoming" 0.

(** A record with a postal code no census row has, among known ones. *)
Definition with_unknown_code : list Virus.row :=
  case_of "ZZ" d20200310 (Some 7) :: two_reports.

(** A namespace before the first run, and one holding stale results. *)
Definition fresh : Globals.t :=
  Globals.mk two_reports [wyoming] None None.

Definition stale : Globals.t :=
  Globals.mk two_reports [wyoming] (Some []) (Some []).

(** A lookup table that knows Wyoming only. *)
Definition lookup_wy (code : string) : option State :=
  if String.eqb code "56" then Some (mkState "WY" "Wyoming") else None.

(** A record with some counts reported and some missing: 10 positive,
    90 negative, 2 deaths, 100 in total; pending and hospitalized not
    reported. *)
Definition reported_and_missing : list Virus.row :=
  [Virus.mk "WY" d20200310 (Some 10) (Some 90) None None (Some 2) (Some 100)].

(** One positive on the first reporting day. *)
Definition one_report : list Virus.row :=
  [case_of "WY" d20200310 (Some 1)].

(** ** Further definitions *)

(** The earlier of two dates, either of which may be missing. *)
Definition min_opt (a b : option Z) : option Z :=
  match a, b with
  | Some x, Some y => Some (Z.min x y)
  | Some x, None => Some x
  | None, _ => b
  end.

(** The dates of a case table lie within a span a Timedelta holds, so
    that no difference of two of them overflows. *)
Definition dates_in_timedelta_span (virus_df : list Virus.row) : Prop :=
  forall s s', In s virus_df -> In s' virus_df ->
               Virus.obs_dt s - Virus.obs_dt s' <= max_timedelta_days.

(** The "data cleanup" of [get_census_data] on the result of the census
    call.  pd.DataFrame(raw) has the column 'state' when the result has
    rows; a result without rows makes a frame without columns, on which
    data['state'] raises [KeyError]. *)
Definition data_cleanup (lookup : string -> option State)
  (raw : list Census.raw) : Result (list Census.row) :=
  match raw with
  | [] => raise KeyError
  | _ :: _ => add_state_columns lookup raw
  end.

(** The columns that identify the case record behind a row of [data]. *)
Definition case_key (s : Virus.row) : string * Z :=
  (Virus.state s, Virus.obs_dt s).

Definition row_key (r : Sql.row) : string * Z :=
  (Sql.state r, Sql.obs_dt r).

(** The exponent and mantissa of a positive finite float; floats of this
    form are ordered like these pairs. *)
Definition pos_key (x : float) : option (Z * Z) :=
  match Prim2SF x with
  | S754_finite false m e => Some (e, Zpos m)
  | _ => None
  end.

Definition key_lt (a b : option (Z * Z)) : bool :=
  match a, b with
  | Some (e1, m1), Some (e2, m2) => (e1 <? e2) || ((e1 =? e2) && (m1 <? m2))
  | _, _ => false
  end.

(** A float cell that holds a number: neither an infinity nor NaN. *)
Definition is_number (x : float) : bool :=
  match Prim2SF x with
  | S754_zero _ | S754_finite _ _ _ => true
  | _ => false
  end.

(** A census row made of a raw row and the attributes of the state the
    lookup finds for its code. *)
Definition labelled (lookup : string -> option State) (r : Census.raw)
  (c : Census.row) : Prop :=
  Census.state c = Census.raw_state r /\
  Census.population_total c = Census.raw_population_total r /\
  Census.estimates c = Census.raw_estimates r /\
  exists st, lookup (Census.raw_state r) = Some st /\
             Census.state_cd c = abbr st /\ Census.state_name c = name st.

(** ** The census variables of [get_census_data] *)

(** The dict [variable_names]: census variable to column name. *)
Definition variable_names : list (string * string) :=
  [("B01003_001E", "population_total");
   ("B01002_002E", "median_age_male");
   ("B01002_003E", "median_age_female");
   ("B02001_002E", "race_white_alone");
   ("B02001_003E", "race_afr_alone");
   ("B02001_005E", "race_asian_alone");
   ("B03003_002E", "hisp_not_hisp");
   ("B08301_003E", "transport_drive_alone");
   ("B08301_010E", "transport_public");
   ("B08301_019E", "transport_walk");
   ("B992701_003E", "healthins_none")]%string.

(** variables = tuple(variable_names.keys()) *)
Definition variables : list string := map fst variable_names.

Definition dict_get (d : list (string * string)) (k : string) : option string :=
  option_map snd (find (fun kv => String.eqb (fst kv) k) d).

(** A frame as its labelled columns.  data.rename(columns=d) replaces a
    label that is a key of [d] by its value and leaves any other label. *)
Definition rename_label (d : list (string * string)) (label : string) : string :=
  match dict_get d label with
  | Some v => v
  | None => label
  end.

Definition rename {A : Type} (d : list (string * string))
  (frame : list (string * A)) : list (string * A) :=
  map (fun col => (rename_label d (fst col), snd col)) frame.

(** data[label] *)
Fixpoint column {A : Type} (label : string) (frame : list (string * A))
  : option A :=
  match frame with
  | [] => None
  | col :: frame' =>
      if String.eqb (fst col) label then Some (snd col)
      else column label frame'
  end.

(** The labels the census result comes with: the requested variables and
    the geography. *)
Definition census_labels : list string := "state"%string :: variables.

(** The census estimates the [data] query reads from [census_df]. *)
Definition census_columns_selected : list string :=
  ["population_total"; "median_age_male"; "median_age_female";
   "race_white_alone"; "race_afr_alone"; "race_asian_alone";
   "hisp_not_hisp"; "transport_drive_alone"; "transport_public";
   "transport_walk"; "healthins_none"]%string.

(** * Properties *)

(** ** Results and [mapM] *)

Lemma bind_inr {A B : Type} (m : Result A) (k : A -> Result B) (b : B) :
  bind m k = inr b -> exists a, m = inr a /\ k a = inr b.
Proof.
  destruct m as [e | a]; simpl; intros H.
  - discriminate H.
  - exists a. split; [reflexivity | exact H].
Qed.

Lemma bind_inl {A B : Type} (m : Result A) (k : A -> Result B) (e : Error) :
  bind m k = inl e -> m = inl e \/ exists a, m = inr a /\ k a = inl e.
Proof.
  destruct m as [e' | a]; simpl; intros H.
  - left. congruence.
  - right. exists a. split; [reflexivity | exact H].
Qed.

Lemma mapM_inr {A B : Type} (f : A -> Result B) (l : list A) (bs : list B) :
  mapM f l = inr bs -> Forall2 (fun a b => f a = inr b) l bs.
Proof.
  revert bs. induction l as [| a l IH]; simpl; intros bs H.
  - inversion H. constructor.
  - apply bind_inr in H. destruct H as (b & Hb & H).
    apply bind_inr in H. destruct H as (bs' & Hbs & H).
    inversion H; subst bs. constructor; [exact Hb | apply IH; exact Hbs].
Qed.

Lemma mapM_inl {A B : Type} (f : A -> Result B) (l : list A) (e : Error) :
  mapM f l = inl e -> exists a, In a l /\ f a = inl e.
Proof.
  induction l as [| a l IH]; simpl; intros H.
  - discriminate H.
  - apply bind_inl in H. destruct H as [H | (b & _ & H)].
    + exists a. split; [left; reflexivity | exact H].
    + apply bind_inl in H. destruct H as [H | (bs & _ & H)].
      * destruct (IH H) as (a' & Hin & Ha'). exists a'. split; [right|]; assumption.
      * discriminate H.
Qed.

Lemma mapM_total {A B : Type} (f : A -> Result B) (l : list A) :
  (forall a, In a l -> exists b, f a = inr b) ->
  exists bs, mapM f l = inr bs.
Proof.
  induction l as [| a l IH]; simpl; intros H.
  - exists []. reflexivity.
  - destruct (H a (or_introl eq_refl)) as (b & Hb).
    destruct IH as (bs & Hbs); [intros a' Ha'; apply H; right; exact Ha' |].
    exists (b :: bs). rewrite Hb, Hbs. reflexivity.
Qed.

Lemma Forall2_In_r {A B : Type} (R : A -> B -> Prop) (l : list A) (bs : list B) (b : B) :
  Forall2 R l bs -> In b bs -> exists a, In a l /\ R a b.
Proof.
  induction 1 as [| a b' l bs' HR _ IH]; simpl; intros Hin.
  - contradiction.
  - destruct Hin as [<- | Hin].
    + exists a. split; [left; reflexivity | exact HR].
    + destruct (IH Hin) as (a' & Ha' & HR'). exists a'. split; [right|]; assumption.
Qed.

Lemma Forall2_In_l {A B : Type} (R : A -> B -> Prop) (l : list A) (bs : list B) (a : A) :
  Forall2 R l bs -> In a l -> exists b, In b bs /\ R a b.
Proof.
  induction 1 as [| a' b l' bs' HR _ IH]; simpl; intros Hin.
  - contradiction.
  - destruct Hin as [<- | Hin].
    + exists b. split; [left; reflexivity | exact HR].
    + destruct (IH Hin) as (b' & Hb' & HR'). exists b'. split; [right|]; assumption.
Qed.

(** ** The aggregation of [firstcase] *)

Lemma first_obs_agg_min (acc : list FirstCase.row) (k : string) (d : Z) (k' : string) :
  first_obs (agg_min acc k d) k' =
  if String.eqb k k'
  then Some (match first_obs acc k with
             | Some d' => Z.min d' d
             | None => d
             end)
  else first_obs acc k'.
Proof.
  induction acc as [| f acc IH]; simpl.
  - reflexivity.
  - destruct (String.eqb_spec (FirstCase.state f) k) as [Hfk | Hfk]; simpl.
    + destruct (String.eqb_spec k k') as [Hkk | Hkk].
      * reflexivity.
      * subst k. destruct (String.eqb_spec (FirstCase.state f) k'); congruence.
    + rewrite IH. destruct (String.eqb_spec k k') as [Hkk | Hkk].
      * subst k'. destruct (String.eqb_spec (FirstCase.state f) k); congruence.
      * reflexivity.
Qed.

Lemma agg_min_keys (acc : list FirstCase.row) (k : string) (d : Z) (k' : string) :
  In k' (map FirstCase.state (agg_min acc k d)) <->
  k' = k \/ In k' (map FirstCase.state acc).
Proof.
  induction acc as [| f acc IH]; simpl.
  - intuition congruence.
  - destruct (String.eqb_spec (FirstCase.state f) k) as [Hfk | Hfk]; simpl.
    + intuition congruence.
    + rewrite IH. intuition congruence.
Qed.

Lemma agg_min_NoDup (acc : list FirstCase.row) (k : string) (d : Z) :
  NoDup (map FirstCase.state acc) ->
  NoDup (map FirstCase.state (agg_min acc k d)).
Proof.
  induction acc as [| f acc IH]; simpl; intros H.
  - constructor; [intros [] | constructor].
  - inversion H as [| x l Hnotin Hnd]; subst.
    destruct (String.eqb_spec (FirstCase.state f) k) as [Hfk | Hfk]; simpl.
    + subst k. constructor; assumption.
    + constructor.
      * rewrite agg_min_keys. intros [Heq | Hin]; [congruence | contradiction].
      * apply IH. exact Hnd.
Qed.

Lemma group_by_min_snoc (t : list Virus.row) (s : Virus.row) :
  group_by_min (t ++ [s]) =
  agg_min (group_by_min t) (Virus.state s) (Virus.obs_dt s).
Proof.
  unfold group_by_min. rewrite fold_left_app. reflexivity.
Qed.

Lemma group_by_min_NoDup (t : list Virus.row) :
  NoDup (map FirstCase.state (group_by_min t)).
Proof.
  induction t as [| s t IH] using rev_ind.
  - constructor.
  - rewrite group_by_min_snoc. apply agg_min_NoDup. exact IH.
Qed.

Lemma group_by_min_first_obs (t : list Virus.row) (k : string) :
  is_min_date t k (first_obs (group_by_min t) k).
Proof.
  induction t as [| s t IH] using rev_ind.
  - simpl. intros s [].
  - rewrite group_by_min_snoc, first_obs_agg_min.
    destruct (String.eqb_spec (Virus.state s) k) as [Hsk | Hsk].
    + subst k. unfold is_min_date in *.
      destruct (first_obs (group_by_min t) (Virus.state s)) as [d' |].
      * destruct IH as ((s0 & Hin0 & Hst0 & Hd0) & Hmin). split.
        -- destruct (Z.min_spec d' (Virus.obs_dt s)) as [(_ & ->) | (_ & ->)].
           ++ exists s0. rewrite in_app_iff. auto.
           ++ exists s. rewrite in_app_iff. simpl. auto.
        -- intros s1 Hin1 Hst1. rewrite in_app_iff in Hin1.
           destruct Hin1 as [Hin1 | [<- | []]].
           ++ specialize (Hmin s1 Hin1 Hst1). lia.
           ++ lia.
      * split.
        -- exists s. rewrite in_app_iff. simpl. auto.
        -- intros s1 Hin1 Hst1. rewrite in_app_iff in Hin1.
           destruct Hin1 as [Hin1 | [<- | []]].
           ++ elim (IH s1 Hin1 Hst1).
           ++ lia.
    + unfold is_min_date in *.
      destruct (first_obs (group_by_min t) k) as [d |].
      * destruct IH as ((s0 & Hin0 & Hst0 & Hd0) & Hmin). split.
        -- exists s0. rewrite in_app_iff. auto.
        -- intros s1 Hin1 Hst1. rewrite in_app_iff in Hin1.
           destruct Hin1 as [Hin1 | [<- | []]]; [auto | congruence].
      * intros s1 Hin1. rewrite in_app_iff in Hin1.
        destruct Hin1 as [Hin1 | [<- | []]]; [auto | exact Hsk].
Qed.

Lemma firstcase_NoDup (virus_df : list Virus.row) :
  NoDup (map FirstCase.state (firstcase virus_df)).
Proof. apply group_by_min_NoDup. Qed.

Lemma in_qualifying (virus_df : list Virus.row) (s : Virus.row) :
  In s (filter (fun s => is_not_null (Virus.positive s)) virus_df) <->
  In s virus_df /\ qualifies s.
Proof.
  rewrite filter_In. unfold qualifies.
  destruct (Virus.positive s); simpl; intuition congruence.
Qed.

Lemma first_obs_None (fc : list FirstCase.row) (k : string) :
  first_obs fc k = None <-> ~ In k (map FirstCase.state fc).
Proof.
  induction fc as [| f fc IH]; simpl.
  - intuition.
  - destruct (String.eqb_spec (FirstCase.state f) k) as [Hfk | Hfk].
    + split; [discriminate | intros H; elim H; left; exact Hfk].
    + rewrite IH. intuition.
Qed.

Lemma first_obs_In (fc : list FirstCase.row) (f : FirstCase.row) :
  NoDup (map FirstCase.state fc) ->
  (In f fc <-> first_obs fc (FirstCase.state f) = Some (FirstCase.obs_dt f)).
Proof.
  induction fc as [| g fc IH]; simpl; intros Hnd.
  - split; [intros [] | discriminate].
  - inversion Hnd as [| x l Hnotin Hnd']; subst.
    destruct (String.eqb_spec (FirstCase.state g) (FirstCase.state f)) as [Hgf | Hgf].
    + split.
      * intros [-> | Hin]; [reflexivity |].
        elim Hnotin. rewrite Hgf. apply in_map. exact Hin.
      * intros H. left. destruct g, f; simpl in *. congruence.
    + rewrite <- (IH Hnd'). split.
      * intros [-> | Hin]; [congruence | exact Hin].
      * intros Hin. right. exact Hin.
Qed.

Lemma filter_absent (fc : list FirstCase.row) (k : string) :
  ~ In k (map FirstCase.state fc) ->
  filter (fun f => String.eqb k (FirstCase.state f)) fc = [].
Proof.
  induction fc as [| f fc IH]; simpl; intros H.
  - reflexivity.
  - destruct (String.eqb_spec k (FirstCase.state f)) as [Hkf | Hkf].
    + elim H. left. symmetry. exact Hkf.
    + apply IH. intros Hin. apply H. right. exact Hin.
Qed.

(** With one row per state, the rows of [firstcase] the left join matches
    to a state are the single row [first_obs] finds, or none. *)
Lemma filter_first_obs (fc : list FirstCase.row) (k : string) :
  NoDup (map FirstCase.state fc) ->
  filter (fun f => String.eqb k (FirstCase.state f)) fc =
  match first_obs fc k with
  | Some d => [FirstCase.mk k d]
  | None => []
  end.
Proof.
  induction fc as [| f fc IH]; simpl; intros Hnd.
  - reflexivity.
  - inversion Hnd as [| x l Hnotin Hnd']; subst.
    rewrite (String.eqb_sym (FirstCase.state f) k).
    destruct (String.eqb_spec k (FirstCase.state f)) as [Hkf | Hkf].
    + subst k. rewrite (filter_absent fc _ Hnotin). destruct f. reflexivity.
    + apply IH. exact Hnd'.
Qed.

(** The date [firstcase] holds for a state is the least date of the
    state's rows with a non-null positive count. *)
Lemma firstcase_first_obs (virus_df : list Virus.row) (k : string) :
  match first_obs (firstcase virus_df) k with
  | Some d =>
      (exists s, In s virus_df /\ qualifies s /\ Virus.state s = k /\
                 Virus.obs_dt s = d) /\
      (forall s, In s virus_df -> qualifies s -> Virus.state s = k ->
                 d <= Virus.obs_dt s)
  | None => forall s, In s virus_df -> qualifies s -> Virus.state s <> k
  end.
Proof.
  unfold firstcase.
  pose proof (group_by_min_first_obs
                (filter (fun s => is_not_null (Virus.positive s)) virus_df) k) as H.
  unfold is_min_date in H.
  destruct (first_obs _ k) as [d |].
  - destruct H as ((s & Hin & Hst & Hd) & Hmin).
    apply in_qualifying in Hin. destruct Hin as (Hin & Hq). split.
    + exists s. auto.
    + intros s' Hin' Hq' Hst'. apply Hmin; [| exact Hst'].
      apply in_qualifying. auto.
  - intros s Hin Hq. apply H. apply in_qualifying. auto.
Qed.

(** ** The joins *)

Lemma in_inner_join (virus_df : list Virus.row) (census_df : list Census.row)
  (s : Virus.row) (c : Census.row) :
  In (s, c) (inner_join virus_df census_df) <->
  In s virus_df /\ In c census_df /\ Virus.state s = Census.state_cd c.
Proof.
  unfold inner_join. rewrite in_flat_map. split.
  - intros (s' & Hin & H). apply in_map_iff in H.
    destruct H as (c' & Heq & Hc). apply filter_In in Hc.
    destruct Hc as (Hc & Hst). apply String.eqb_eq in Hst.
    inversion Heq; subst. auto.
  - intros (Hs & Hc & Hst). exists s. split; [exact Hs |].
    apply in_map. apply filter_In. split; [exact Hc |].
    apply String.eqb_eq. exact Hst.
Qed.

Lemma left_join_attach (sc : list (Virus.row * Census.row))
  (fc : list FirstCase.row) :
  NoDup (map FirstCase.state fc) ->
  left_join sc fc = map (attach fc) sc.
Proof.
  intros Hnd. unfold left_join.
  induction sc as [| p sc IH]; simpl.
  - reflexivity.
  - simpl in *. rewrite IH, (filter_first_obs fc _ Hnd). unfold attach.
    destruct (first_obs fc (Virus.state (fst p))); reflexivity.
Qed.

Lemma first_obs_dt_attach (fc : list FirstCase.row) (p : Virus.row * Census.row) :
  Sql.first_obs_dt (select (attach fc p)) = first_obs fc (Virus.state (fst p)).
Proof.
  unfold attach. destruct p as (s, c). simpl.
  destruct (first_obs fc (Virus.state s)); reflexivity.
Qed.

(** Every row of [data] comes from a case row and a census row of the same
    state, and carries the date [firstcase] holds for that state. *)
Lemma in_data_sql (virus_df : list Virus.row) (census_df : list Census.row)
  (fc : list FirstCase.row) (r : Sql.row) :
  NoDup (map FirstCase.state fc) ->
  (In r (data_sql virus_df census_df fc) <->
   exists s c, In s virus_df /\ In c census_df /\
               Virus.state s = Census.state_cd c /\
               r = select (attach fc (s, c))).
Proof.
  intros Hnd. unfold data_sql, from_joins.
  rewrite (left_join_attach _ _ Hnd), map_map, in_map_iff. split.
  - intros ((s, c) & Heq & Hin). apply in_inner_join in Hin.
    exists s, c. intuition.
  - intros (s & c & Hs & Hc & Hst & ->). exists (s, c).
    split; [reflexivity | apply in_inner_join; auto].
Qed.

Lemma in_left_join (sc : list (Virus.row * Census.row)) (fc : list FirstCase.row)
  (p : Virus.row * Census.row) (o : option FirstCase.row) :
  In (p, o) (left_join sc fc) -> In p sc.
Proof.
  unfold left_join. rewrite in_flat_map. intros (p' & Hin & H).
  destruct (filter _ fc) as [| f m].
  - destruct H as [H | []]. inversion H; subst. exact Hin.
  - apply in_map_iff in H. destruct H as (f' & H & _).
    inversion H; subst. exact Hin.
Qed.

(** ** The metric cells *)

Lemma metric_row_inr (r : Sql.row) (m : Metric.row) :
  metric_row r = inr m ->
  exists d,
    Sql.first_obs_dt r = Some d /\
    m = {| Metric.sql := r;
           Metric.time_elapsed_since_firstpos := Some (Sql.obs_dt r - d);
           Metric.days_elapsed_since_firstpos := Sql.obs_dt r - d;
           Metric.pos_per100k := per100k (Sql.positive r) (Sql.population r);
           Metric.death_per100k := per100k (Sql.death r) (Sql.population r);
           Metric.adj_multiplier := multiplier (Sql.obs_dt r - d);
           Metric.adj_pos_per100k :=
             (per100k (Sql.positive r) (Sql.population r)
              * multiplier (Sql.obs_dt r - d))%float;
           Metric.adj_death_per100k :=
             (per100k (Sql.death r) (Sql.population r)
              * multiplier (Sql.obs_dt r - d))%float |}.
Proof.
  unfold metric_row, time_elapsed_since_firstpos.
  destruct (Sql.first_obs_dt r) as [d |]; simpl; intros H.
  - exists d. split; [reflexivity |]. inversion H. reflexivity.
  - discriminate H.
Qed.

Lemma metric_row_inl (r : Sql.row) (e : Error) :
  metric_row r = inl e -> e = ValueError /\ Sql.first_obs_dt r = None.
Proof.
  unfold metric_row, time_elapsed_since_firstpos.
  destruct (Sql.first_obs_dt r) as [d |]; simpl; intros H.
  - discriminate H.
  - inversion H. auto.
Qed.

Lemma metric_row_total (r : Sql.row) :
  Sql.first_obs_dt r <> None -> exists m, metric_row r = inr m.
Proof.
  unfold metric_row, time_elapsed_since_firstpos.
  destruct (Sql.first_obs_dt r) as [d |]; simpl; intros H.
  - eexists. reflexivity.
  - elim H. reflexivity.
Qed.

(** A row of the finished table is the metric row of a row of the query. *)
Lemma in_pipeline (virus_df : list Virus.row) (census_df : list Census.row)
  (rows : list Metric.row) (m : Metric.row) :
  pipeline virus_df census_df = inr rows -> In m rows ->
  In (Metric.sql m) (data_sql virus_df census_df (firstcase virus_df)) /\
  metric_row (Metric.sql m) = inr m.
Proof.
  unfold pipeline, metric_cells. intros H Hin.
  apply mapM_inr in H.
  destruct (Forall2_In_r _ _ _ _ H Hin) as (r & Hr & Hm).
  destruct (metric_row_inr _ _ Hm) as (d & _ & Heq).
  assert (Hsql : Metric.sql m = r) by (rewrite Heq; reflexivity).
  rewrite Hsql. auto.
Qed.

(** The cells raise exactly when some row of the query has no baseline, and
    then with the integer cast's [ValueError]. *)
Lemma pipeline_inl (virus_df : list Virus.row) (census_df : list Census.row)
  (e : Error) :
  pipeline virus_df census_df = inl e ->
  e = ValueError /\
  exists r, In r (data_sql virus_df census_df (firstcase virus_df)) /\
            Sql.first_obs_dt r = None.
Proof.
  unfold pipeline, metric_cells. intros H.
  apply mapM_inl in H. destruct H as (r & Hin & H).
  apply metric_row_inl in H. destruct H as (-> & Hnone).
  split; [reflexivity |]. exists r. auto.
Qed.

Lemma pipeline_total (virus_df : list Virus.row) (census_df : list Census.row) :
  (forall r, In r (data_sql virus_df census_df (firstcase virus_df)) ->
             Sql.first_obs_dt r <> None) ->
  exists rows, pipeline virus_df census_df = inr rows.
Proof.
  intros H. unfold pipeline, metric_cells. apply mapM_total.
  intros r Hin. apply metric_row_total. apply H. exact Hin.
Qed.

(** ** The claims *)

(** C3. For any case table, [firstcase] has one row per state that has at
    least one record with a non-null positive count, and that row's date is
    the least observation date among the state's records with a non-null
    positive count: the date is the date of such a record, and no such
    record of the state is earlier.  A recorded zero qualifies, a null does
    not, and a state without a qualifying record has no row. *)
Theorem C3_firstcase_is_minimum_date : forall virus_df : list Virus.row,
  NoDup (map FirstCase.state (firstcase virus_df)) /\
  (forall f, In f (firstcase virus_df) ->
     (exists s, In s virus_df /\ Virus.positive s <> None /\
                Virus.state s = FirstCase.state f /\
                Virus.obs_dt s = FirstCase.obs_dt f) /\
     (forall s, In s virus_df -> Virus.positive s <> None ->
                Virus.state s = FirstCase.state f ->
                FirstCase.obs_dt f <= Virus.obs_dt s)) /\
  (forall s, In s virus_df -> Virus.positive s <> None ->
     exists f, In f (firstcase virus_df) /\
               FirstCase.state f = Virus.state s) /\
  (forall s, In s virus_df -> Virus.positive s = Some 0 ->
     exists f, In f (firstcase virus_df) /\
               FirstCase.state f = Virus.state s) /\
  (forall k, (forall s, In s virus_df -> Virus.state s = k ->
                        Virus.positive s = None) ->
     forall f, In f (firstcase virus_df) -> FirstCase.state f <> k).
Proof.
  intros virus_df.
  pose proof (firstcase_NoDup virus_df) as Hnd.
  assert (Hentry : forall f, In f (firstcase virus_df) ->
     (exists s, In s virus_df /\ Virus.positive s <> None /\
                Virus.state s = FirstCase.state f /\
                Virus.obs_dt s = FirstCase.obs_dt f) /\
     (forall s, In s virus_df -> Virus.positive s <> None ->
                Virus.state s = FirstCase.state f ->
                FirstCase.obs_dt f <= Virus.obs_dt s)).
  { intros f Hin. apply (first_obs_In _ _ Hnd) in Hin.
    pose proof (firstcase_first_obs virus_df (FirstCase.state f)) as H.
    rewrite Hin in H. exact H. }
  assert (Hcover : forall s, In s virus_df -> Virus.positive s <> None ->
     exists f, In f (firstcase virus_df) /\
               FirstCase.state f = Virus.state s).
  { intros s Hin Hq.
    pose proof (firstcase_first_obs virus_df (Virus.state s)) as H.
    destruct (first_obs (firstcase virus_df) (Virus.state s)) as [d |] eqn:Hfo.
    - exists (FirstCase.mk (Virus.state s) d). split; [| reflexivity].
      apply (first_obs_In _ _ Hnd). exact Hfo.
    - elim (H s Hin Hq). reflexivity. }
  split; [exact Hnd |]. split; [exact Hentry |]. split; [exact Hcover |]. split.
  - intros s Hin Hz. apply Hcover; [exact Hin | congruence].
  - intros k Hnull f Hin Hk.
    destruct (Hentry f Hin) as ((s & Hs & Hq & Hst & _) & _).
    apply Hq. apply Hnull; [exact Hs | congruence].
Qed.

(** C10. The baseline is per state, not per (state, date): a row of [data]
    has a null first-observation date exactly when every case record of its
    state has a null positive count.  So a state with one record with a
    non-null positive count gives a non-null baseline to every one of its
    rows, also to those whose own positive count is null; and every row of
    the finished table has a baseline, with a qualifying record of its
    state behind it. *)
Theorem C10_baseline_is_per_state :
  forall (virus_df : list Virus.row) (census_df : list Census.row),
  (forall r, In r (data_sql virus_df census_df (firstcase virus_df)) ->
     (Sql.first_obs_dt r = None <->
      forall s, In s virus_df -> Virus.state s = Sql.state r ->
                Virus.positive s = None)) /\
  (forall rows m, pipeline virus_df census_df = inr rows -> In m rows ->
     exists d s, Sql.first_obs_dt (Metric.sql m) = Some d /\
                 In s virus_df /\
                 Virus.state s = Sql.state (Metric.sql m) /\
                 Virus.positive s <> None).
Proof.
  intros virus_df census_df.
  assert (Hsql : forall r,
     In r (data_sql virus_df census_df (firstcase virus_df)) ->
     match Sql.first_obs_dt r with
     | Some _ => exists s, In s virus_df /\ Virus.state s = Sql.state r /\
                           Virus.positive s <> None
     | None => forall s, In s virus_df -> Virus.state s = Sql.state r ->
                         Virus.positive s = None
     end).
  { intros r Hin.
    apply (in_data_sql _ _ _ _ (firstcase_NoDup virus_df)) in Hin.
    destruct Hin as (s0 & c0 & Hs0 & Hc0 & Hst & ->).
    rewrite first_obs_dt_attach.
    replace (Sql.state (select (attach (firstcase virus_df) (s0, c0))))
      with (Virus.state s0) by reflexivity.
    pose proof (firstcase_first_obs virus_df (Virus.state (fst (s0, c0)))) as H.
    simpl fst in *.
    destruct (first_obs (firstcase virus_df) (Virus.state s0)) as [d |].
    - destruct H as ((s & Hs & Hq & Hk & _) & _). exists s. auto.
    - intros s Hs Hk. specialize (H s Hs).
      unfold qualifies in H. destruct (Virus.positive s); [| reflexivity].
      elim H; [discriminate | exact Hk]. }
  split.
  - intros r Hin. specialize (Hsql r Hin).
    destruct (Sql.first_obs_dt r) as [d |].
    + split; [discriminate |]. intros Hnull.
      destruct Hsql as (s & Hs & Hk & Hq). elim Hq. apply Hnull; assumption.
    + split; [intros _; exact Hsql | reflexivity].
  - intros rows m Hrun Hin.
    destruct (in_pipeline _ _ _ _ Hrun Hin) as (Hr & Hm).
    destruct (metric_row_inr _ _ Hm) as (d & Hd & _).
    specialize (Hsql _ Hr). rewrite Hd in Hsql.
    destruct Hsql as (s & Hs & Hk & Hq). exists d, s. auto.
Qed.

(** C4. The inner join never produces a row for a state that is absent
    from the census table: every row of [data], and so every row of the
    finished table, has the [state_cd] of some census row as its state, and
    a case record whose state has no census row leaves no row behind. *)
Theorem C4_no_row_without_census :
  forall (virus_df : list Virus.row) (census_df : list Census.row),
  (forall fc r, In r (data_sql virus_df census_df fc) ->
     exists c, In c census_df /\ Census.state_cd c = Sql.state r) /\
  (forall rows m, pipeline virus_df census_df = inr rows -> In m rows ->
     exists c, In c census_df /\
               Census.state_cd c = Sql.state (Metric.sql m)) /\
  (forall s, In s virus_df ->
     (forall c, In c census_df -> Census.state_cd c <> Virus.state s) ->
     (forall fc r, In r (data_sql virus_df census_df fc) ->
                   Sql.state r <> Virus.state s) /\
     (forall rows m, pipeline virus_df census_df = inr rows -> In m rows ->
                     Sql.state (Metric.sql m) <> Virus.state s)).
Proof.
  intros virus_df census_df.
  assert (Hsql : forall fc r, In r (data_sql virus_df census_df fc) ->
     exists c, In c census_df /\ Census.state_cd c = Sql.state r).
  { intros fc r Hin. unfold data_sql, from_joins in Hin.
    apply in_map_iff in Hin. destruct Hin as (((s, c), f) & <- & Hin).
    apply in_left_join, in_inner_join in Hin.
    destruct Hin as (_ & Hc & Hst). exists c. simpl. auto. }
  assert (Hrows : forall rows m,
     pipeline virus_df census_df = inr rows -> In m rows ->
     exists c, In c census_df /\ Census.state_cd c = Sql.state (Metric.sql m)).
  { intros rows m Hrun Hin.
    destruct (in_pipeline _ _ _ _ Hrun Hin) as (Hr & _).
    exact (Hsql _ _ Hr). }
  split; [exact Hsql |]. split; [exact Hrows |].
  intros s _ Habsent. split.
  - intros fc r Hin Heq. destruct (Hsql fc r Hin) as (c & Hc & Hcd).
    apply (Habsent c Hc). congruence.
  - intros rows m Hrun Hin Heq. destruct (Hrows rows m Hrun Hin) as (c & Hc & Hcd).
    apply (Habsent c Hc). congruence.
Qed.

Lemma Z2float_nonneg (z : Z) :
  0 <= z -> Z2float z = of_uint63 (Uint63.of_Z z).
Proof.
  destruct z as [| p | p]; intros H; [reflexivity | reflexivity | lia].
Qed.

(** C5 (as the code has it). Each of the six count columns of a row of
    [data] is the input count where one is reported and zero where it is
    null, and the population is the census population of the row's state.
    The two rates of a finished row are 100000.0 * (count / population) on
    these positive and death counts, each from its own count: the integers
    are converted to floats, the quotient is rounded, and the product is
    rounded.  The coalescing plays no part in the first-observation test: a
    state whose positive counts are all null has no [firstcase] row,
    although its coalesced counts are zero. *)
Theorem C5_coalesced_counts_and_rates :
  forall (virus_df : list Virus.row) (census_df : list Census.row),
  (forall r, In r (data_sql virus_df census_df (firstcase virus_df)) ->
     exists s c, In s virus_df /\ In c census_df /\
       Virus.state s = Census.state_cd c /\
       Sql.state r = Virus.state s /\
       Sql.obs_dt r = Virus.obs_dt s /\
       Sql.positive r =
         match Virus.positive s with Some v => v | None => 0 end /\
       Sql.negative r =
         match Virus.negative s with Some v => v | None => 0 end /\
       Sql.pending r =
         match Virus.pending s with Some v => v | None => 0 end /\
       Sql.hospitalized r =
         match Virus.hospitalized s with Some v => v | None => 0 end /\
       Sql.death r =
         match Virus.death s with Some v => v | None => 0 end /\
       Sql.total r =
         match Virus.total s with Some v => v | None => 0 end /\
       Sql.population r = Census.population_total c) /\
  (forall rows m, pipeline virus_df census_df = inr rows -> In m rows ->
     In (Metric.sql m) (data_sql virus_df census_df (firstcase virus_df)) /\
     Metric.pos_per100k m =
       (100000 * (Z2float (Sql.positive (Metric.sql m))
                  / Z2float (Sql.population (Metric.sql m))))%float /\
     Metric.death_per100k m =
       (100000 * (Z2float (Sql.death (Metric.sql m))
                  / Z2float (Sql.population (Metric.sql m))))%float /\
     (0 <= Sql.population (Metric.sql m) ->
      (0 <= Sql.positive (Metric.sql m) ->
       Metric.pos_per100k m =
         (100000 * (of_uint63 (Uint63.of_Z (Sql.positive (Metric.sql m)))
                    / of_uint63 (Uint63.of_Z (Sql.population (Metric.sql m)))))
         %float) /\
      (0 <= Sql.death (Metric.sql m) ->
       Metric.death_per100k m =
         (100000 * (of_uint63 (Uint63.of_Z (Sql.death (Metric.sql m)))
                    / of_uint63 (Uint63.of_Z (Sql.population (Metric.sql m)))))
         %float))) /\
  (forall k, (forall s, In s virus_df -> Virus.state s = k ->
                        Virus.positive s = None) ->
     ~ In k (map FirstCase.state (firstcase virus_df))).
Proof.
  intros virus_df census_df. split; [| split].
  - intros r Hin.
    apply (in_data_sql _ _ _ _ (firstcase_NoDup virus_df)) in Hin.
    destruct Hin as (s & c & Hs & Hc & Hst & ->).
    exists s, c. simpl. repeat (split; [assumption || reflexivity |]).
    reflexivity.
  - intros rows m Hrun Hin.
    destruct (in_pipeline _ _ _ _ Hrun Hin) as (Hr & Hm).
    split; [exact Hr |].
    destruct (metric_row_inr _ _ Hm) as (d & _ & Heq).
    assert (Hpos : Metric.pos_per100k m =
              per100k (Sql.positive (Metric.sql m)) (Sql.population (Metric.sql m)))
      by (rewrite Heq; reflexivity).
    assert (Hdth : Metric.death_per100k m =
              per100k (Sql.death (Metric.sql m)) (Sql.population (Metric.sql m)))
      by (rewrite Heq; reflexivity).
    split; [exact Hpos |]. split; [exact Hdth |].
    intros Hpop. split; intros Hcount.
    + rewrite Hpos. unfold per100k.
      rewrite (Z2float_nonneg _ Hcount), (Z2float_nonneg _ Hpop). reflexivity.
    + rewrite Hdth. unfold per100k.
      rewrite (Z2float_nonneg _ Hcount), (Z2float_nonneg _ Hpop). reflexivity.
  - intros k Hnull Hin. apply in_map_iff in Hin.
    destruct Hin as (f & Hk & Hin).
    apply (first_obs_In _ _ (firstcase_NoDup virus_df)) in Hin.
    pose proof (firstcase_first_obs virus_df (FirstCase.state f)) as H.
    rewrite Hin in H. destruct H as ((s & Hs & Hq & Hst & _) & _).
    apply Hq. apply Hnull; [exact Hs | congruence].
Qed.

(** ** Float facts *)

Lemma all_from_spec (test : Z -> bool) (n : nat) (d : Z) :
  all_from test n d = true ->
  forall k, d <= k < d + Z.of_nat n -> test k = true.
Proof.
  revert d. induction n as [| n IH]; intros d H k Hk.
  - simpl in Hk. lia.
  - simpl in H. apply andb_true_iff in H. destruct H as (Hd & Hrest).
    destruct (Z.eq_dec k d) as [-> | Hne]; [exact Hd |].
    apply (IH (d + 1) Hrest). lia.
Qed.

(** The multiplier of every non-negative day count a Timedelta can hold,
    checked by running the float division on each of them. *)
Lemma multiplier_in_range_upto_max :
  all_from multiplier_in_range (Z.to_nat (max_timedelta_days + 1)) 0 = true.
Proof. vm_compute. reflexivity. Qed.

Lemma multiplier_bounds (days : Z) :
  0 <= days <= max_timedelta_days ->
  (0 <=? multiplier days)%float = true /\
  (multiplier days <? 1)%float = true /\
  ((multiplier days =? 0)%float = true <-> days = 0).
Proof.
  intros Hd.
  assert (H : multiplier_in_range days = true).
  { apply (all_from_spec _ _ _ multiplier_in_range_upto_max).
    unfold max_timedelta_days in *. lia. }
  unfold multiplier_in_range in H.
  apply andb_true_iff in H. destruct H as (H & Hz).
  apply andb_true_iff in H. destruct H as (Hlo & Hhi).
  apply Bool.eqb_prop in Hz.
  split; [exact Hlo |]. split; [exact Hhi |].
  rewrite Hz. apply Z.eqb_eq.
Qed.

(** No day count in the Timedelta range, negative ones included, gives a
    null multiplier. *)
Lemma multiplier_not_null_in_range :
  all_from (fun d => negb (isnull (multiplier d)))
    (Z.to_nat (2 * max_timedelta_days + 1)) (- max_timedelta_days) = true.
Proof. vm_compute. reflexivity. Qed.

Lemma multiplier_not_null (days : Z) :
  - max_timedelta_days <= days <= max_timedelta_days ->
  isnull (multiplier days) = false.
Proof.
  intros Hd. apply negb_true_iff.
  apply (all_from_spec _ _ _ multiplier_not_null_in_range).
  unfold max_timedelta_days in *. lia.
Qed.

Lemma isnull_Prim2SF (x : float) :
  isnull x = true <-> Prim2SF x = S754_nan.
Proof.
  unfold isnull, PrimFloat.is_nan. rewrite FloatAxioms.eqb_spec.
  unfold SFeqb. destruct (Prim2SF x) as [s | s | | s m e]; simpl.
  - split; discriminate.
  - destruct s; simpl; split; discriminate.
  - split; reflexivity.
  - rewrite Z.compare_refl, Pos.compare_cont_refl.
    destruct s; simpl; split; discriminate.
Qed.

(** NaN propagates through a product. *)
Lemma isnull_mul_r (x y : float) :
  isnull y = true -> isnull (x * y)%float = true.
Proof.
  rewrite !isnull_Prim2SF, FloatAxioms.mul_spec. intros ->.
  unfold SF64mul, SFmul. destruct (Prim2SF x); reflexivity.
Qed.

Lemma isnull_mul_l (x y : float) :
  isnull x = true -> isnull (x * y)%float = true.
Proof.
  rewrite !isnull_Prim2SF, FloatAxioms.mul_spec. intros ->. reflexivity.
Qed.

(** *** When a product is NaN

    Rounding a non-negative mantissa never yields NaN, so the product of
    two numbers is a number or an infinity; NaN comes only from NaN or from
    zero times infinity. *)

Lemma shr_1_nonneg (mrs : shr_record) :
  0 <= shr_m mrs -> 0 <= shr_m (shr_1 mrs).
Proof.
  destruct mrs as [m r s]. simpl.
  destruct m as [| [p | p |] | [p | p |]]; simpl; lia.
Qed.

Lemma iter_shr_1_nonneg (n : positive) (mrs : shr_record) :
  0 <= shr_m mrs -> 0 <= shr_m (iter_pos shr_1 n mrs).
Proof.
  revert mrs. induction n as [n IH | n IH |]; intros mrs H; simpl.
  - apply IH, IH, shr_1_nonneg, H.
  - apply IH, IH, H.
  - apply shr_1_nonneg, H.
Qed.

Lemma shr_fexp_nonneg (m e : Z) (l : location) :
  0 <= m -> 0 <= shr_m (fst (shr_fexp prec emax m e l)).
Proof.
  intros Hm. unfold shr_fexp, shr.
  assert (H : 0 <= shr_m (shr_record_of_loc m l))
    by (destruct l as [| []]; exact Hm).
  destruct (fexp prec emax (Zdigits2 m + e) - e) as [| n | n]; simpl;
    [exact H | apply iter_shr_1_nonneg, H | exact H].
Qed.

Lemma round_nearest_even_nonneg (m : Z) (l : location) :
  0 <= m -> 0 <= round_nearest_even m l.
Proof.
  intros Hm. unfold round_nearest_even.
  destruct l as [| []]; try destruct (Z.even m); lia.
Qed.

Lemma binary_round_aux_not_nan (s : bool) (m e : Z) (l : location) :
  0 <= m -> binary_round_aux prec emax s m e l <> S754_nan.
Proof.
  intros Hm. unfold binary_round_aux.
  pose proof (shr_fexp_nonneg m e l Hm) as H1.
  destruct (shr_fexp prec emax m e l) as (mrs', e'). simpl in H1.
  pose proof (shr_fexp_nonneg _ e' loc_Exact
                (round_nearest_even_nonneg _ (loc_of_shr_record mrs') H1)) as H2.
  destruct (shr_fexp prec emax _ e' loc_Exact) as (mrs'', e''). simpl in H2.
  destruct (shr_m mrs'') as [| p | p].
  - discriminate.
  - destruct (e'' <=? emax - prec); discriminate.
  - lia.
Qed.

Lemma eqb_zero_Prim2SF (x : float) :
  (x =? 0)%float = true <-> exists s, Prim2SF x = S754_zero s.
Proof.
  rewrite FloatAxioms.eqb_spec. change (Prim2SF 0) with (S754_zero false).
  unfold SFeqb. destruct (Prim2SF x) as [s | s | | s m e]; simpl.
  - split; [intros _; exists s; reflexivity | reflexivity].
  - destruct s; split; try discriminate; intros (s' & H); discriminate H.
  - split; [discriminate | intros (s' & H); discriminate H].
  - destruct s; split; try discriminate; intros (s' & H); discriminate H.
Qed.

Lemma abs_infinity_Prim2SF (x : float) :
  (abs x =? infinity)%float = true <-> exists s, Prim2SF x = S754_infinity s.
Proof.
  rewrite FloatAxioms.eqb_spec, FloatAxioms.abs_spec.
  change (Prim2SF infinity) with (S754_infinity false).
  unfold SFeqb. destruct (Prim2SF x) as [s | s | | s m e]; simpl.
  - split; [discriminate | intros (s' & H); discriminate H].
  - split; [intros _; exists s; reflexivity | reflexivity].
  - split; [discriminate | intros (s' & H); discriminate H].
  - split; [discriminate | intros (s' & H); discriminate H].
Qed.

(** A product is null exactly when a factor is null or the factors are a
    zero and an infinity. *)
Lemma isnull_mul_iff (x y : float) :
  isnull (x * y)%float = true <->
  isnull x = true \/ isnull y = true \/
  ((x =? 0)%float = true /\ (abs y =? infinity)%float = true) \/
  ((abs x =? infinity)%float = true /\ (y =? 0)%float = true).
Proof.
  rewrite !isnull_Prim2SF, !eqb_zero_Prim2SF, !abs_infinity_Prim2SF.
  rewrite FloatAxioms.mul_spec. unfold SF64mul, SFmul.
  destruct (Prim2SF x) as [sx | sx | | sx mx ex],
           (Prim2SF y) as [sy | sy | | sy my ey].
  all: try (split; [discriminate | ];
            intros [H | [H | [((s & H) & (s' & H')) | ((s & H) & (s' & H'))]]];
            discriminate).
  all: try (split; [intros _ | reflexivity]; eauto 8).
  split.
  - intros H. exfalso. revert H. apply binary_round_aux_not_nan.
    apply Pos2Z.is_nonneg.
  - intros [H | [H | [((s & H) & (s' & H')) | ((s & H) & (s' & H'))]]];
      discriminate.
Qed.

(** Division by zero never yields a number. *)
Lemma div_by_zero (x : float) : not_a_number (x / 0)%float.
Proof.
  pose proof (FloatAxioms.div_spec x 0) as H.
  change (Prim2SF 0) with (S754_zero false) in H.
  unfold not_a_number.
  rewrite <- (FloatAxioms.SF2Prim_Prim2SF (x / 0)), H.
  unfold SF64div, SFdiv.
  destruct (Prim2SF x) as [s | s | | s m e]; try destruct s; simpl; auto.
Qed.

(** *** Signs

    Rounding keeps the sign, so the sign of a quotient or a product is the
    exclusive or of the signs of its operands. *)

Lemma binary_round_aux_sign (s : bool) (m e : Z) (l : location) :
  has_sign s (binary_round_aux prec emax s m e l).
Proof.
  unfold binary_round_aux.
  destruct (shr_fexp prec emax m e l) as (mrs', e').
  destruct (shr_fexp prec emax _ e' loc_Exact) as (mrs'', e'').
  unfold has_sign.
  destruct (shr_m mrs'') as [| p | p]; [reflexivity | | exact I].
  destruct (e'' <=? emax - prec); reflexivity.
Qed.

Lemma binary_normalize_sign (m : Z) :
  0 <= m -> has_sign false (binary_normalize prec emax m 0 false).
Proof.
  destruct m as [| p | p]; simpl; intros H.
  - reflexivity.
  - unfold binary_round.
    destruct (shl_align p 0 _) as (mz, ez). apply binary_round_aux_sign.
  - lia.
Qed.

Lemma of_uint63_sign (n : int) : has_sign false (Prim2SF (of_uint63 n)).
Proof.
  rewrite FloatAxioms.of_uint63_spec. apply binary_normalize_sign.
  apply Uint63.to_Z_bounded.
Qed.

Lemma SFopp_sign (b : bool) (x : spec_float) :
  has_sign b x -> has_sign (negb b) (SFopp x).
Proof. destruct x; simpl; congruence. Qed.

Lemma Z2float_sign (z : Z) : has_sign (z <? 0) (Prim2SF (Z2float z)).
Proof.
  destruct z as [| p | p]; simpl.
  - reflexivity.
  - apply of_uint63_sign.
  - rewrite FloatAxioms.opp_spec. apply (SFopp_sign false), of_uint63_sign.
Qed.

Lemma SF64div_sign (a b : bool) (x y : spec_float) :
  has_sign a x -> has_sign b y -> has_sign (xorb a b) (SF64div x y).
Proof.
  unfold SF64div, SFdiv.
  destruct x as [sx | sx | | sx mx ex], y as [sy | sy | | sy my ey]; simpl;
    intros Hx Hy; subst; try reflexivity; try exact I.
  destruct (SFdiv_core_binary prec emax (Z.pos mx) ex (Z.pos my) ey)
    as ((mz, ez), lz).
  apply binary_round_aux_sign.
Qed.

Lemma SF64mul_sign (a b : bool) (x y : spec_float) :
  has_sign a x -> has_sign b y -> has_sign (xorb a b) (SF64mul x y).
Proof.
  unfold SF64mul, SFmul.
  destruct x as [sx | sx | | sx mx ex], y as [sy | sy | | sy my ey]; simpl;
    intros Hx Hy; subst; try reflexivity; try exact I.
  apply binary_round_aux_sign.
Qed.

Lemma per100k_sign (count population : Z) :
  has_sign (xorb (count <? 0) (population <? 0))
    (Prim2SF (per100k count population)).
Proof.
  unfold per100k. rewrite FloatAxioms.mul_spec, FloatAxioms.div_spec.
  apply (SF64mul_sign false).
  - reflexivity.
  - apply SF64div_sign; apply Z2float_sign.
Qed.

Lemma negative_not_above_zero (x : float) :
  has_sign true (Prim2SF x) -> (0 <? x)%float = false.
Proof.
  rewrite FloatAxioms.ltb_spec. change (Prim2SF 0) with (S754_zero false).
  unfold SFltb.
  destruct (Prim2SF x) as [s | s | | s m e]; simpl; intros H; subst; reflexivity.
Qed.

Lemma positive_not_below_zero (x : float) :
  has_sign false (Prim2SF x) -> (x <? 0)%float = false.
Proof.
  rewrite FloatAxioms.ltb_spec. change (Prim2SF 0) with (S754_zero false).
  unfold SFltb.
  destruct (Prim2SF x) as [s | s | | s m e]; simpl; intros H; subst; reflexivity.
Qed.

(** A non-negative count over a negative population: never a positive
    rate. *)
Lemma per100k_negative_population (count population : Z) :
  0 <= count -> population < 0 ->
  (0 <? per100k count population)%float = false.
Proof.
  intros Hc Hp. apply negative_not_above_zero.
  pose proof (per100k_sign count population) as H.
  replace (count <? 0) with false in H by (symmetry; apply Z.ltb_ge; exact Hc).
  replace (population <? 0) with true in H by (symmetry; apply Z.ltb_lt; exact Hp).
  exact H.
Qed.

Lemma per100k_zero_population (count : Z) : not_a_number (per100k count 0).
Proof.
  unfold per100k. change (Z2float 0) with 0%float.
  destruct (div_by_zero (Z2float count)) as [-> | [-> | ->]];
    unfold not_a_number; vm_compute; auto.
Qed.

(** C1 (as the code has it). Every row of the finished table comes from a
    case record of its state and date, and its elapsed-day count is that
    record's date minus the state's baseline.  The count is non-negative
    when the record's own positive count is non-null (the record then takes
    part in the minimum); and whenever the count is non-negative (and a day
    count a Timedelta holds), the multiplier days / (1.0 + days) is at
    least 0, less than 1, and equal to 0 exactly when the count is 0. *)
Theorem C1_multiplier_bounds :
  forall (virus_df : list Virus.row) (census_df : list Census.row)
         (rows : list Metric.row) (m : Metric.row),
  pipeline virus_df census_df = inr rows -> In m rows ->
  Metric.adj_multiplier m = multiplier (Metric.days_elapsed_since_firstpos m) /\
  (exists s d,
     In s virus_df /\
     Virus.state s = Sql.state (Metric.sql m) /\
     Virus.obs_dt s = Sql.obs_dt (Metric.sql m) /\
     Sql.positive (Metric.sql m) = coalesce (Virus.positive s) 0 /\
     Sql.first_obs_dt (Metric.sql m) = Some d /\
     Metric.days_elapsed_since_firstpos m = Virus.obs_dt s - d /\
     (Virus.positive s <> None -> 0 <= Metric.days_elapsed_since_firstpos m)) /\
  (0 <= Metric.days_elapsed_since_firstpos m <= max_timedelta_days ->
     (0 <=? Metric.adj_multiplier m)%float = true /\
     (Metric.adj_multiplier m <? 1)%float = true /\
     ((Metric.adj_multiplier m =? 0)%float = true <->
      Metric.days_elapsed_since_firstpos m = 0)).
Proof.
  intros virus_df census_df rows m Hrun Hin.
  destruct (in_pipeline _ _ _ _ Hrun Hin) as (Hr & Hm).
  destruct (metric_row_inr _ _ Hm) as (d & Hd & Heq).
  assert (Hdays : Metric.days_elapsed_since_firstpos m =
                  Sql.obs_dt (Metric.sql m) - d)
    by (rewrite Heq; reflexivity).
  assert (Hmult : Metric.adj_multiplier m =
                  multiplier (Metric.days_elapsed_since_firstpos m))
    by (rewrite Heq; reflexivity).
  split; [exact Hmult |]. split.
  - apply (in_data_sql _ _ _ _ (firstcase_NoDup virus_df)) in Hr.
    destruct Hr as (s & c & Hs & Hc & Hst & Hsel).
    assert (Hfo : first_obs (firstcase virus_df) (Virus.state s) = Some d).
    { rewrite <- Hd, Hsel. symmetry. apply (first_obs_dt_attach _ (s, c)). }
    exists s, d. rewrite Hdays, Hsel.
    split; [exact Hs |]. split; [reflexivity |]. split; [reflexivity |].
    split; [reflexivity |]. split; [rewrite <- Hsel; exact Hd |].
    split; [reflexivity |].
    intros Hq.
    pose proof (firstcase_first_obs virus_df (Virus.state s)) as H.
    rewrite Hfo in H. destruct H as (_ & Hmin).
    specialize (Hmin s Hs Hq eq_refl). simpl. lia.
  - intros Hrange. rewrite Hmult. apply multiplier_bounds. exact Hrange.
Qed.

Lemma C1_multiplier_bounds_witness :
  exists rows m,
    pipeline two_reports [wyoming] = inr rows /\ In m rows /\
    Metric.days_elapsed_since_firstpos m = 5 /\
    (0 <=? Metric.adj_multiplier m)%float = true /\
    (Metric.adj_multiplier m <? 1)%float = true /\
    ((Metric.adj_multiplier m =? 0)%float = true <->
     Metric.days_elapsed_since_firstpos m = 0).
Proof.
  eexists. eexists.
  split; [vm_compute; reflexivity |].
  split; [right; left; reflexivity |].
  split; [reflexivity |].
  apply (C1_multiplier_bounds two_reports [wyoming] _ _ eq_refl
           (or_intror (or_introl eq_refl))).
  vm_compute. split; discriminate.
Defined.

(** C1, the claim as stated, fails: a record without a positive count,
    dated four days before its state's first reported count, yields a row
    with a negative elapsed-day count and a multiplier above 1. *)
Lemma C1_counterexample_negative_elapsed :
  exists rows m,
    pipeline (unreported_then_reported 4) [wyoming] = inr rows /\
    In m rows /\
    Metric.time_elapsed_since_firstpos m = Some (-4) /\
    Metric.days_elapsed_since_firstpos m = -4 /\
    (0 <=? Metric.adj_multiplier m)%float = true /\
    (Metric.adj_multiplier m <? 1)%float = false /\
    (1 <? Metric.adj_multiplier m)%float = true.
Proof.
  eexists. eexists.
  split; [vm_compute; reflexivity |].
  split; [left; reflexivity |].
  vm_compute. repeat split.
Qed.

(** C6 (as the code has it). Each adjusted rate of a finished row is the
    un-adjusted rate times the multiplier, the same multiplier for the
    positive rate and the death rate.  An adjusted rate is null exactly
    when the multiplier is null, or the rate is null, or one of the two is
    a zero and the other an infinity. *)
Theorem C6_adjusted_rates :
  forall (virus_df : list Virus.row) (census_df : list Census.row)
         (rows : list Metric.row) (m : Metric.row),
  pipeline virus_df census_df = inr rows -> In m rows ->
  Metric.adj_pos_per100k m =
    (Metric.pos_per100k m * Metric.adj_multiplier m)%float /\
  Metric.adj_death_per100k m =
    (Metric.death_per100k m * Metric.adj_multiplier m)%float /\
  (isnull (Metric.adj_pos_per100k m) = true <->
   isnull (Metric.pos_per100k m) = true \/
   isnull (Metric.adj_multiplier m) = true \/
   ((Metric.pos_per100k m =? 0)%float = true /\
    (abs (Metric.adj_multiplier m) =? infinity)%float = true) \/
   ((abs (Metric.pos_per100k m) =? infinity)%float = true /\
    (Metric.adj_multiplier m =? 0)%float = true)) /\
  (isnull (Metric.adj_death_per100k m) = true <->
   isnull (Metric.death_per100k m) = true \/
   isnull (Metric.adj_multiplier m) = true \/
   ((Metric.death_per100k m =? 0)%float = true /\
    (abs (Metric.adj_multiplier m) =? infinity)%float = true) \/
   ((abs (Metric.death_per100k m) =? infinity)%float = true /\
    (Metric.adj_multiplier m =? 0)%float = true)) /\
  (- max_timedelta_days <= Metric.days_elapsed_since_firstpos m
     <= max_timedelta_days ->
     isnull (Metric.adj_multiplier m) = false).
Proof.
  intros virus_df census_df rows m Hrun Hin.
  destruct (in_pipeline _ _ _ _ Hrun Hin) as (_ & Hm).
  destruct (metric_row_inr _ _ Hm) as (d & _ & Heq).
  assert (Hpos : Metric.adj_pos_per100k m =
                 (Metric.pos_per100k m * Metric.adj_multiplier m)%float)
    by (rewrite Heq; reflexivity).
  assert (Hdth : Metric.adj_death_per100k m =
                 (Metric.death_per100k m * Metric.adj_multiplier m)%float)
    by (rewrite Heq; reflexivity).
  assert (Hmult : Metric.adj_multiplier m =
                  multiplier (Metric.days_elapsed_since_firstpos m))
    by (rewrite Heq; reflexivity).
  split; [exact Hpos |]. split; [exact Hdth |].
  split; [rewrite Hpos; apply isnull_mul_iff |].
  split; [rewrite Hdth; apply isnull_mul_iff |].
  intros Hrange. rewrite Hmult. apply multiplier_not_null. exact Hrange.
Qed.

(** On the row of the day before the baseline the adjusted positive rate
    is null because the rate is a zero and the multiplier an infinity; on
    the row of the baseline day no disjunct holds and it is not null. *)
Lemma C6_adjusted_rates_witness :
  exists m1 m0,
    pipeline (unreported_then_reported 1) [wyoming] = inr [m1; m0] /\
    Metric.adj_pos_per100k m1 =
      (Metric.pos_per100k m1 * Metric.adj_multiplier m1)%float /\
    (Metric.pos_per100k m1 =? 0)%float = true /\
    (abs (Metric.adj_multiplier m1) =? infinity)%float = true /\
    isnull (Metric.adj_pos_per100k m1) = true /\
    isnull (Metric.adj_multiplier m0) = false /\
    isnull (Metric.adj_pos_per100k m0) = false.
Proof.
  eexists. eexists.
  split; [vm_compute; reflexivity |].
  pose proof (C6_adjusted_rates (unreported_then_reported 1) [wyoming] _ _
                eq_refl (or_introl eq_refl)) as (Hpos & _ & Hnull & _ & _).
  pose proof (C6_adjusted_rates (unreported_then_reported 1) [wyoming] _ _
                eq_refl (or_intror (or_introl eq_refl)))
    as (_ & _ & Hnull0 & _ & Hmult0).
  split; [exact Hpos |].
  split; [reflexivity |]. split; [reflexivity |].
  split.
  - apply (proj2 Hnull). right. right. left. split; reflexivity.
  - split.
    + apply Hmult0. vm_compute. split; discriminate.
    + apply Bool.not_true_is_false. intros Hadj.
      destruct (proj1 Hnull0 Hadj) as [H | [H | [(H & _) | (H & _)]]];
        vm_compute in H; discriminate H.
Defined.

(** C6, the claim as stated, fails: the row of the day before the baseline
    has the multiplier -1 / (1.0 - 1) = -inf, which is not null, and a zero
    rate, so both adjusted rates are 0 * -inf = NaN, that is, null. *)
Lemma C6_counterexample_null_adjusted_rate :
  exists rows m,
    pipeline (unreported_then_reported 1) [wyoming] = inr rows /\
    In m rows /\
    Metric.days_elapsed_since_firstpos m = -1 /\
    Metric.adj_multiplier m = neg_infinity /\
    isnull (Metric.adj_multiplier m) = false /\
    isnull (Metric.pos_per100k m) = false /\
    isnull (Metric.adj_pos_per100k m) = true /\
    isnull (Metric.adj_death_per100k m) = true.
Proof.
  eexists. eexists.
  split; [vm_compute; reflexivity |].
  split; [left; reflexivity |].
  vm_compute. repeat split.
Qed.

(** C2, as the code has it: take a case record of a state that has a
    census row and no record with a positive count.  [firstcase] has no row
    for the state and the left join keeps the record, with a null
    first-observation date, so far as the claim says; but the integer cast
    of the elapsed days then raises [ValueError], and no table is
    produced. *)
Theorem C2_missing_baseline_raises :
  forall (virus_df : list Virus.row) (census_df : list Census.row)
         (s : Virus.row) (c : Census.row),
  In s virus_df -> In c census_df ->
  Virus.state s = Census.state_cd c ->
  (forall s', In s' virus_df -> Virus.state s' = Virus.state s ->
              Virus.positive s' = None) ->
  (forall f, In f (firstcase virus_df) ->
             FirstCase.state f <> Virus.state s) /\
  In (select (s, c, None)) (data_sql virus_df census_df (firstcase virus_df)) /\
  time_elapsed_since_firstpos (select (s, c, None)) = None /\
  pipeline virus_df census_df = inl ValueError.
Proof.
  intros virus_df census_df s c Hs Hc Hst Hnull.
  assert (Hfo : first_obs (firstcase virus_df) (Virus.state s) = None).
  { pose proof (firstcase_first_obs virus_df (Virus.state s)) as H.
    destruct (first_obs (firstcase virus_df) (Virus.state s)) as [d |];
      [| reflexivity].
    destruct H as ((s' & Hs' & Hq & Hst' & _) & _).
    elim Hq. apply Hnull; assumption. }
  assert (Hrow : In (select (s, c, None))
                   (data_sql virus_df census_df (firstcase virus_df))).
  { apply (in_data_sql _ _ _ _ (firstcase_NoDup virus_df)).
    exists s, c. repeat (split; [assumption |]).
    unfold attach. simpl. rewrite Hfo. reflexivity. }
  split; [| split; [exact Hrow | split; [reflexivity |]]].
  - intros f Hf Hk. apply first_obs_None in Hfo. apply Hfo.
    rewrite <- Hk. apply in_map. exact Hf.
  - destruct (pipeline virus_df census_df) as [e | rows] eqn:Hrun.
    + apply pipeline_inl in Hrun. destruct Hrun as (-> & _). reflexivity.
    + unfold pipeline, metric_cells in Hrun. apply mapM_inr in Hrun.
      destruct (Forall2_In_l _ _ _ _ Hrun Hrow) as (m & _ & Hm).
      discriminate Hm.
Qed.

Lemma C2_missing_baseline_raises_witness :
  firstcase never_reported = [] /\
  map Sql.first_obs_dt
    (data_sql never_reported [wyoming] (firstcase never_reported)) = [None] /\
  pipeline never_reported [wyoming] = inl ValueError.
Proof.
  split; [reflexivity |]. split; [reflexivity |].
  apply (C2_missing_baseline_raises never_reported [wyoming]
           (case_of "WY" d20200310 None) wyoming).
  - left. reflexivity.
  - left. reflexivity.
  - reflexivity.
  - intros s' [<- | []] _. reflexivity.
Defined.

(** C7 (as the code has it). The population is never checked.  The only
    exception the cells raise is the integer cast's [ValueError], for a
    row without a baseline; when every row of the query has a baseline the
    finished table has one row for each, whatever the populations, with
    the rates the float division yields.  For a population of zero these
    are never numbers: each rate is an infinity or NaN.  For a negative
    population and a non-negative count the rate is never above zero. *)
Theorem C7_population_is_not_checked :
  forall (virus_df : list Virus.row) (census_df : list Census.row),
  (forall e, pipeline virus_df census_df = inl e ->
     e = ValueError /\
     exists r, In r (data_sql virus_df census_df (firstcase virus_df)) /\
               Sql.first_obs_dt r = None) /\
  ((forall r, In r (data_sql virus_df census_df (firstcase virus_df)) ->
              Sql.first_obs_dt r <> None) ->
   exists rows,
     pipeline virus_df census_df = inr rows /\
     Forall2
       (fun r m =>
          Metric.sql m = r /\
          Metric.pos_per100k m =
            per100k (Sql.positive r) (Sql.population r) /\
          Metric.death_per100k m =
            per100k (Sql.death r) (Sql.population r))
       (data_sql virus_df census_df (firstcase virus_df)) rows) /\
  (forall rows m, pipeline virus_df census_df = inr rows -> In m rows ->
     Sql.population (Metric.sql m) = 0 ->
     not_a_number (Metric.pos_per100k m) /\
     not_a_number (Metric.death_per100k m)) /\
  (forall rows m, pipeline virus_df census_df = inr rows -> In m rows ->
     Sql.population (Metric.sql m) < 0 ->
     (0 <= Sql.positive (Metric.sql m) ->
      (0 <? Metric.pos_per100k m)%float = false) /\
     (0 <= Sql.death (Metric.sql m) ->
      (0 <? Metric.death_per100k m)%float = false)).
Proof.
  intros virus_df census_df. split; [| split; [| split]].
  - intros e He. apply pipeline_inl. exact He.
  - intros Hbase. destruct (pipeline_total _ _ Hbase) as (rows & Hrun).
    exists rows. split; [exact Hrun |].
    unfold pipeline, metric_cells in Hrun. apply mapM_inr in Hrun.
    eapply Forall2_impl; [| exact Hrun].
    intros r m Hm. destruct (metric_row_inr _ _ Hm) as (d & _ & ->).
    simpl. auto.
  - intros rows m Hrun Hin Hzero.
    destruct (in_pipeline _ _ _ _ Hrun Hin) as (_ & Hm).
    destruct (metric_row_inr _ _ Hm) as (d & _ & Heq).
    rewrite Heq. simpl. rewrite Heq in Hzero. simpl in Hzero. rewrite Hzero.
    split; apply per100k_zero_population.
  - intros rows m Hrun Hin Hneg.
    destruct (in_pipeline _ _ _ _ Hrun Hin) as (_ & Hm).
    destruct (metric_row_inr _ _ Hm) as (d & _ & Heq).
    rewrite Heq. simpl. rewrite Heq in Hneg. simpl in Hneg.
    split; intros Hcount; apply per100k_negative_population; assumption.
Qed.

Lemma C7_population_is_not_checked_witness :
  exists rows,
    pipeline two_reports [unpopulated] = inr rows /\
    Forall2
      (fun r m =>
         Metric.sql m = r /\
         Metric.pos_per100k m = per100k (Sql.positive r) (Sql.population r) /\
         Metric.death_per100k m = per100k (Sql.death r) (Sql.population r))
      (data_sql two_reports [unpopulated] (firstcase two_reports)) rows.
Proof.
  apply (proj1 (proj2 (C7_population_is_not_checked two_reports [unpopulated]))).
  intros r Hin. vm_compute in Hin.
  destruct Hin as [<- | [<- | []]]; discriminate.
Defined.

(** C7, the claim as stated, fails: with a census population of 0 the
    cells raise nothing; the row is produced with an infinite positive
    rate, and with a null death rate (0 / 0) that carries no flag. *)
Lemma C7_counterexample_zero_population :
  exists rows m,
    pipeline two_reports [unpopulated] = inr rows /\
    In m rows /\
    Sql.population (Metric.sql m) = 0 /\
    Metric.pos_per100k m = infinity /\
    isnull (Metric.death_per100k m) = true.
Proof.
  eexists. eexists.
  split; [vm_compute; reflexivity |].
  split; [left; reflexivity |].
  vm_compute. repeat split.
Qed.

(** ** Records of unknown states *)

Lemma known_state_false (census_df : list Census.row) (s : Virus.row) :
  known_state census_df s = false ->
  filter (fun c => String.eqb (Virus.state s) (Census.state_cd c)) census_df = [].
Proof.
  unfold known_state. induction census_df as [| c cs IH]; simpl; intros H.
  - reflexivity.
  - apply orb_false_iff in H. destruct H as (Hc & Hcs).
    rewrite Hc. apply IH. exact Hcs.
Qed.

Lemma known_state_true (census_df : list Census.row) (s : Virus.row) :
  known_state census_df s = true <->
  exists c, In c census_df /\ Virus.state s = Census.state_cd c.
Proof.
  unfold known_state. rewrite existsb_exists. split.
  - intros (c & Hc & He). exists c. split; [exact Hc |].
    apply String.eqb_eq. exact He.
  - intros (c & Hc & He). exists c. split; [exact Hc |].
    apply String.eqb_eq. exact He.
Qed.

Lemma inner_join_known (virus_df : list Virus.row) (census_df : list Census.row) :
  inner_join (filter (known_state census_df) virus_df) census_df =
  inner_join virus_df census_df.
Proof.
  unfold inner_join. induction virus_df as [| s v IH]; simpl.
  - reflexivity.
  - destruct (known_state census_df s) eqn:Hk; simpl.
    + rewrite IH. reflexivity.
    + rewrite IH, (known_state_false _ _ Hk). reflexivity.
Qed.

Lemma filter_comm {A : Type} (p q : A -> bool) (l : list A) :
  filter p (filter q l) = filter q (filter p l).
Proof.
  induction l as [| a l IH]; simpl.
  - reflexivity.
  - destruct (p a) eqn:Hp, (q a) eqn:Hq; simpl;
      rewrite ?Hp, ?Hq, IH; reflexivity.
Qed.

(** The date the aggregation holds for a state depends on the rows of that
    state only. *)
Lemma first_obs_group_by_min_filter (p : Virus.row -> bool)
  (t : list Virus.row) (k : string) :
  (forall s, In s t -> Virus.state s = k -> p s = true) ->
  first_obs (group_by_min (filter p t)) k = first_obs (group_by_min t) k.
Proof.
  induction t as [| s t IH] using rev_ind; intros Hp.
  - reflexivity.
  - assert (IH' : first_obs (group_by_min (filter p t)) k =
                  first_obs (group_by_min t) k).
    { apply IH. intros s' Hin. apply Hp. apply in_or_app. left. exact Hin. }
    rewrite filter_app, group_by_min_snoc, first_obs_agg_min. simpl.
    destruct (String.eqb_spec (Virus.state s) k) as [Hsk | Hsk].
    + rewrite (Hp s); [| apply in_or_app; right; left; reflexivity | exact Hsk].
      rewrite group_by_min_snoc, first_obs_agg_min, Hsk, String.eqb_refl, IH'.
      reflexivity.
    + destruct (p s).
      * rewrite group_by_min_snoc, first_obs_agg_min.
        destruct (String.eqb_spec (Virus.state s) k); [contradiction | exact IH'].
      * rewrite app_nil_r. exact IH'.
Qed.

Lemma first_obs_firstcase_known (virus_df : list Virus.row)
  (census_df : list Census.row) (s : Virus.row) :
  known_state census_df s = true ->
  first_obs (firstcase (filter (known_state census_df) virus_df)) (Virus.state s) =
  first_obs (firstcase virus_df) (Virus.state s).
Proof.
  intros Hk. unfold firstcase. rewrite filter_comm.
  apply first_obs_group_by_min_filter.
  intros s' _ Hst. apply known_state_true in Hk. apply known_state_true.
  destruct Hk as (c & Hc & He). exists c. split; [exact Hc | congruence].
Qed.

Lemma data_sql_known (virus_df : list Virus.row) (census_df : list Census.row) :
  data_sql (filter (known_state census_df) virus_df) census_df
    (firstcase (filter (known_state census_df) virus_df)) =
  data_sql virus_df census_df (firstcase virus_df).
Proof.
  unfold data_sql, from_joins.
  rewrite !left_join_attach by apply firstcase_NoDup.
  rewrite inner_join_known. f_equal. apply map_ext_in.
  intros (s, c) Hin. apply in_inner_join in Hin. destruct Hin as (_ & Hc & Hst).
  unfold attach. simpl. rewrite first_obs_firstcase_known; [reflexivity |].
  apply known_state_true. exists c. auto.
Qed.

(** ** The state lookup *)

Lemma mapM_lookup_unknown {A : Type} (lookup : string -> option State)
  (attr : State -> A) (codes : list string) (code : string) :
  In code codes -> lookup code = None ->
  mapM (lookup_attr lookup attr) codes = inl AttributeError.
Proof.
  induction codes as [| a l IH]; simpl; intros Hin Hnone.
  - contradiction.
  - unfold lookup_attr at 1. destruct (lookup a) as [st |] eqn:Ha; simpl.
    + destruct Hin as [-> | Hin]; [congruence |].
      rewrite (IH Hin Hnone). reflexivity.
    + reflexivity.
Qed.

Lemma mapM_lookup_inl {A : Type} (lookup : string -> option State)
  (attr : State -> A) (codes : list string) (e : Error) :
  mapM (lookup_attr lookup attr) codes = inl e ->
  e = AttributeError /\ exists code, In code codes /\ lookup code = None.
Proof.
  intros H. apply mapM_inl in H. destruct H as (code & Hin & H).
  unfold lookup_attr in H. destruct (lookup code) eqn:Hl.
  - discriminate H.
  - inversion H. split; [reflexivity |]. exists code. auto.
Qed.

(** ** Re-running the notebook *)

Lemma run_all_pipeline (g : Globals.t) :
  run_all g =
  rows <- pipeline (Globals.virus_df g) (Globals.census_df g) ;;
  ret (after_run g rows).
Proof. reflexivity. Qed.

(** C8 (as the code has it). A case record whose postal code is the
    [state_cd] of no census row is dropped by the inner join without any
    exception: the cells give the same result, rows or exception, as on
    the case table without such records, and no finished row carries the
    code.  On the census side, a numeric code that [us.states.lookup] does
    not know makes [get_census_data] raise [AttributeError], its only
    exception here, so no census table is loaded at all. *)
Theorem C8_unknown_code_is_dropped_silently :
  forall (virus_df : list Virus.row) (census_df : list Census.row),
  pipeline virus_df census_df =
    pipeline (filter (known_state census_df) virus_df) census_df /\
  (forall s, In s virus_df -> known_state census_df s = false ->
     forall rows m, pipeline virus_df census_df = inr rows -> In m rows ->
                    Sql.state (Metric.sql m) <> Virus.state s) /\
  (forall (lookup : string -> option State) (raw : list Census.raw),
     (add_state_columns lookup raw = inl AttributeError <->
      exists r, In r raw /\ lookup (Census.raw_state r) = None) /\
     (forall e, add_state_columns lookup raw = inl e -> e = AttributeError)).
Proof.
  intros virus_df census_df. split; [| split].
  - unfold pipeline. rewrite data_sql_known. reflexivity.
  - intros s _ Hunknown rows m Hrun Hin Heq.
    destruct (in_pipeline _ _ _ _ Hrun Hin) as (Hr & _).
    apply (in_data_sql _ _ _ _ (firstcase_NoDup virus_df)) in Hr.
    destruct Hr as (s' & c & _ & Hc & Hst & Hsel).
    rewrite Hsel in Heq. simpl in Heq.
    assert (Hk : known_state census_df s = true).
    { apply known_state_true. exists c. split; [exact Hc | congruence]. }
    congruence.
  - intros lookup raw.
    assert (Hinl : forall e, add_state_columns lookup raw = inl e ->
              e = AttributeError /\
              exists r, In r raw /\ lookup (Census.raw_state r) = None).
    { intros e H. unfold add_state_columns in H.
      assert (Hcol : forall (A : Type) (attr : State -> A),
                mapM (lookup_attr lookup attr) (map Census.raw_state raw) = inl e ->
                e = AttributeError /\
                exists r, In r raw /\ lookup (Census.raw_state r) = None).
      { intros A attr Hcol. apply mapM_lookup_inl in Hcol.
        destruct Hcol as (-> & code & Hin & Hnone). split; [reflexivity |].
        apply in_map_iff in Hin. destruct Hin as (r & <- & Hr). exists r. auto. }
      apply bind_inl in H. destruct H as [H | (cds & _ & H)].
      - exact (Hcol _ _ H).
      - apply bind_inl in H. destruct H as [H | (names & _ & H)].
        + exact (Hcol _ _ H).
        + discriminate H. }
    split; [split |].
    + intros H. exact (proj2 (Hinl _ H)).
    + intros (r & Hr & Hnone). unfold add_state_columns.
      rewrite (mapM_lookup_unknown lookup abbr _ (Census.raw_state r));
        [reflexivity | apply in_map; exact Hr | exact Hnone].
    + intros e H. exact (proj1 (Hinl _ H)).
Qed.

Lemma C8_unknown_code_is_dropped_silently_witness :
  pipeline with_unknown_code [wyoming] = pipeline two_reports [wyoming] /\
  add_state_columns lookup_wy
    [Census.mkRaw "56" 500000 no_estimates; Census.mkRaw "99" 1 no_estimates]
  = inl AttributeError.
Proof.
  pose proof (C8_unknown_code_is_dropped_silently with_unknown_code [wyoming])
    as (Hsame & _ & Hlookup).
  split.
  - exact Hsame.
  - apply (proj1 (Hlookup lookup_wy _)).
    exists (Census.mkRaw "99" 1 no_estimates).
    split; [right; left; reflexivity | reflexivity].
Defined.

(** C8, the claim as stated, fails: on a case table with a record of the
    unknown code ZZ the cells raise nothing and return the two Wyoming rows;
    the ZZ record has disappeared without a trace. *)
Lemma C8_counterexample_unknown_code :
  exists rows,
    In (case_of "ZZ" d20200310 (Some 7)) with_unknown_code /\
    known_state [wyoming] (case_of "ZZ" d20200310 (Some 7)) = false /\
    pipeline with_unknown_code [wyoming] = inr rows /\
    map (fun m => Sql.state (Metric.sql m)) rows = ["WY"; "WY"]%string.
Proof.
  eexists.
  split; [left; reflexivity |].
  split; [reflexivity |].
  split; [vm_compute; reflexivity |].
  reflexivity.
Qed.

(** C9. A run of the cells is a function of the two loaded tables alone:
    two namespaces that hold the same [virus_df] and [census_df] give the
    same result, whatever [firstcase] and [data] they held before; and
    running the cells again in the namespace a run has left gives that
    namespace again, with the same finished table. *)
Theorem C9_rerun_is_identical :
  forall g g' : Globals.t,
  Globals.virus_df g = Globals.virus_df g' ->
  Globals.census_df g = Globals.census_df g' ->
  run_all g = run_all g' /\
  (forall g1, run_all g = inr g1 ->
     run_all g1 = inr g1 /\
     exists rows,
       pipeline (Globals.virus_df g) (Globals.census_df g) = inr rows /\
       Globals.data g1 = Some rows) /\
  (forall e, run_all g = inl e ->
     pipeline (Globals.virus_df g) (Globals.census_df g) = inl e).
Proof.
  intros g g' Hv Hc. rewrite !run_all_pipeline. unfold after_run.
  rewrite <- Hv, <- Hc. split; [reflexivity |]. split.
  - intros g1 H.
    destruct (pipeline (Globals.virus_df g) (Globals.census_df g))
      as [e | rows] eqn:Hrun; simpl in H; [discriminate H |].
    inversion H; subst g1. split.
    + rewrite run_all_pipeline. simpl. rewrite Hrun. reflexivity.
    + exists rows. auto.
  - intros e H.
    destruct (pipeline (Globals.virus_df g) (Globals.census_df g))
      as [e' | rows]; simpl in H; [congruence | discriminate H].
Qed.

Lemma C9_rerun_is_identical_witness :
  run_all fresh = run_all stale /\
  exists g1, run_all fresh = inr g1 /\ run_all g1 = inr g1.
Proof.
  pose proof (C9_rerun_is_identical fresh stale eq_refl eq_refl)
    as (Hsame & Hagain & _).
  split; [exact Hsame |].
  eexists. split; [vm_compute; reflexivity |].
  apply Hagain. vm_compute. reflexivity.
Defined.

(** ** The claims on sample tables *)

Lemma C3_firstcase_is_minimum_date_witness :
  firstcase (unreported_then_reported 4) = [FirstCase.mk "WY" d20200310] /\
  exists f, In f (firstcase (unreported_then_reported 4)) /\
            FirstCase.state f = "WY"%string.
Proof.
  split; [reflexivity |].
  destruct (C3_firstcase_is_minimum_date (unreported_then_reported 4))
    as (_ & _ & Hcover & _).
  apply (Hcover (case_of "WY" d20200310 (Some 10))).
  - right. left. reflexivity.
  - discriminate.
Defined.

Lemma C10_baseline_is_per_state_witness :
  exists rows m,
    pipeline (unreported_then_reported 4) [wyoming] = inr rows /\
    In m rows /\
    Sql.positive (Metric.sql m) = 0 /\
    Sql.obs_dt (Metric.sql m) = d20200310 - 4 /\
    exists d s, Sql.first_obs_dt (Metric.sql m) = Some d /\
                In s (unreported_then_reported 4) /\
                Virus.state s = Sql.state (Metric.sql m) /\
                Virus.positive s <> None.
Proof.
  eexists. eexists.
  split; [vm_compute; reflexivity |].
  split; [left; reflexivity |].
  split; [reflexivity |]. split; [reflexivity |].
  destruct (C10_baseline_is_per_state (unreported_then_reported 4) [wyoming])
    as (_ & Hrows).
  apply (Hrows _ _ eq_refl). left. reflexivity.
Defined.

Lemma C4_no_row_without_census_witness :
  exists rows,
    pipeline with_unknown_code [wyoming] = inr rows /\
    Forall (fun m => Sql.state (Metric.sql m) <> "ZZ"%string) rows.
Proof.
  eexists. split; [vm_compute; reflexivity |].
  apply Forall_forall. intros m Hin.
  destruct (C4_no_row_without_census with_unknown_code [wyoming])
    as (_ & _ & Hdrop).
  assert (Habsent : forall c, In c [wyoming] ->
            Census.state_cd c <> Virus.state (case_of "ZZ" d20200310 (Some 7))).
  { intros c [<- | []]. discriminate. }
  destruct (Hdrop (case_of "ZZ" d20200310 (Some 7))
              (or_introl eq_refl) Habsent) as (_ & Hrows).
  exact (Hrows _ m eq_refl Hin).
Defined.

Lemma C5_coalesced_counts_and_rates_witness :
  exists rows m,
    pipeline reported_and_missing [wyoming] = inr rows /\
    In m rows /\
    Sql.positive (Metric.sql m) = 10 /\
    Sql.negative (Metric.sql m) = 90 /\
    Sql.pending (Metric.sql m) = 0 /\
    Sql.hospitalized (Metric.sql m) = 0 /\
    Sql.death (Metric.sql m) = 2 /\
    Sql.total (Metric.sql m) = 100 /\
    Metric.pos_per100k m =
      (100000 * (of_uint63 (Uint63.of_Z 10)
                 / of_uint63 (Uint63.of_Z 500000)))%float /\
    Metric.death_per100k m =
      (100000 * (of_uint63 (Uint63.of_Z 2)
                 / of_uint63 (Uint63.of_Z 500000)))%float.
Proof.
  eexists. eexists.
  split; [vm_compute; reflexivity |].
  split; [left; reflexivity |].
  destruct (C5_coalesced_counts_and_rates reported_and_missing [wyoming])
    as (Hsql & Hrates & _).
  destruct (Hrates _ _ eq_refl (or_introl eq_refl))
    as (Hr & _ & _ & Hpinned).
  destruct (Hsql _ Hr)
    as (s & c & Hs & _ & _ & _ & _ & Hpos & Hneg & Hpen & Hhos & Hdth & Htot & _).
  destruct Hs as [<- | []].
  split; [exact Hpos |]. split; [exact Hneg |]. split; [exact Hpen |].
  split; [exact Hhos |]. split; [exact Hdth |]. split; [exact Htot |].
  assert (Hpop : 0 <= 500000) by discriminate.
  destruct (Hpinned Hpop) as (Hp & Hd).
  split; [apply Hp | apply Hd]; discriminate.
Defined.

(** C5, the claim as stated, fails in the last bit: with 1 positive in a
    population of 500,000 the rate the cells compute,
    100000.0 * (1 / 500000), is 0.19999999999999998, below the
    0.2 that 100000.0 * 1 / 500000 gives. *)
Lemma C5_counterexample_rounding :
  exists rows m,
    pipeline one_report [wyoming] = inr rows /\
    In m rows /\
    Sql.positive (Metric.sql m) = 1 /\
    Sql.population (Metric.sql m) = 500000 /\
    Metric.pos_per100k m = (100000 * (1 / 500000))%float /\
    (Metric.pos_per100k m =? 100000 * 1 / 500000)%float = false /\
    (Metric.pos_per100k m <? 100000 * 1 / 500000)%float = true.
Proof.
  eexists. eexists.
  split; [vm_compute; reflexivity |].
  split; [left; reflexivity |].
  vm_compute. repeat split.
Qed.

(** The worked example: Wyoming, population 500,000; 10 positives on the
    first reporting day (elapsed 0, rate 2.0, multiplier 0, adjusted 0.0)
    and 50 five days later (elapsed 5, rate 10.0, multiplier 5/6, adjusted
    8.33...). *)
Example worked_example :
  exists m0 m5,
    pipeline two_reports [wyoming] = inr [m0; m5] /\
    Metric.days_elapsed_since_firstpos m0 = 0 /\
    Metric.pos_per100k m0 = 2%float /\
    Metric.adj_multiplier m0 = 0%float /\
    Metric.adj_pos_per100k m0 = 0%float /\
    Metric.days_elapsed_since_firstpos m5 = 5 /\
    Metric.pos_per100k m5 = 10%float /\
    Metric.adj_multiplier m5 = (5 / 6)%float /\
    Metric.adj_pos_per100k m5 = (10 * (5 / 6))%float /\
    (8.25 <? Metric.adj_pos_per100k m5)%float = true /\
    (Metric.adj_pos_per100k m5 <? 8.5)%float = true.
Proof.
  eexists. eexists.
  split; [vm_compute; reflexivity |].
  vm_compute. repeat split.
Qed.

(** * Further properties of the notebook's code *)

(** ** The [firstcase] query *)

(** The date [firstcase] holds for a state is determined by its
    description: any least qualifying date is the one it holds. *)
Lemma first_obs_firstcase_unique (virus_df : list Virus.row) (k : string)
  (o : option Z) :
  match o with
  | Some d =>
      (exists s, In s virus_df /\ qualifies s /\ Virus.state s = k /\
                 Virus.obs_dt s = d) /\
      (forall s, In s virus_df -> qualifies s -> Virus.state s = k ->
                 d <= Virus.obs_dt s)
  | None => forall s, In s virus_df -> qualifies s -> Virus.state s <> k
  end ->
  first_obs (firstcase virus_df) k = o.
Proof.
  intros Ho. pose proof (firstcase_first_obs virus_df k) as H.
  destruct (first_obs (firstcase virus_df) k) as [d |], o as [d' |].
  - destruct H as ((s & Hs & Hq & Hk & Hd) & Hmin).
    destruct Ho as ((s' & Hs' & Hq' & Hk' & Hd') & Hmin').
    specialize (Hmin s' Hs' Hq' Hk'). specialize (Hmin' s Hs Hq Hk).
    f_equal. lia.
  - destruct H as ((s & Hs & Hq & Hk & _) & _). elim (Ho s Hs Hq Hk).
  - destruct Ho as ((s & Hs & Hq & Hk & _) & _). elim (H s Hs Hq Hk).
  - reflexivity.
Qed.

Lemma firstcase_rows_NoDup (virus_df : list Virus.row) :
  NoDup (firstcase virus_df).
Proof.
  apply (NoDup_map_inv FirstCase.state). apply firstcase_NoDup.
Qed.

Lemma first_obs_firstcase_perm (virus_df virus_df' : list Virus.row)
  (k : string) :
  Permutation virus_df virus_df' ->
  first_obs (firstcase virus_df) k = first_obs (firstcase virus_df') k.
Proof.
  intros Hperm. apply first_obs_firstcase_unique.
  pose proof (firstcase_first_obs virus_df' k) as H.
  destruct (first_obs (firstcase virus_df') k) as [d |].
  - destruct H as ((s & Hs & Hrest) & Hmin). split.
    + exists s. split; [| exact Hrest].
      apply (Permutation_in _ (Permutation_sym Hperm)). exact Hs.
    + intros s' Hs'. apply Hmin. apply (Permutation_in _ Hperm). exact Hs'.
  - intros s Hs. apply H. apply (Permutation_in _ Hperm). exact Hs.
Qed.

(** X1. The [firstcase] table does not depend on the order of the case
    rows: for two case tables that are permutations of each other, every
    state has the same first date, and the two [firstcase] tables hold the
    same rows (in some order). *)
Theorem X1_firstcase_order_independent :
  forall virus_df virus_df' : list Virus.row,
  Permutation virus_df virus_df' ->
  (forall k, first_obs (firstcase virus_df) k =
             first_obs (firstcase virus_df') k) /\
  Permutation (firstcase virus_df) (firstcase virus_df').
Proof.
  intros virus_df virus_df' Hperm.
  assert (Hsame : forall k, first_obs (firstcase virus_df) k =
                            first_obs (firstcase virus_df') k).
  { intros k. apply first_obs_firstcase_perm. exact Hperm. }
  split; [exact Hsame |].
  apply NoDup_Permutation; try apply firstcase_rows_NoDup.
  intros f.
  rewrite (first_obs_In _ _ (firstcase_NoDup virus_df)).
  rewrite (first_obs_In _ _ (firstcase_NoDup virus_df')).
  rewrite Hsame. reflexivity.
Qed.

Lemma X1_firstcase_order_independent_witness :
  first_obs (firstcase (rev (unreported_then_reported 4))) "WY" =
  Some d20200310 /\
  Permutation (firstcase (unreported_then_reported 4))
    (firstcase (rev (unreported_then_reported 4))).
Proof.
  destruct (X1_firstcase_order_independent (unreported_then_reported 4)
              (rev (unreported_then_reported 4)) (Permutation_rev _))
    as (Hsame & Hperm).
  split; [rewrite <- Hsame; reflexivity | exact Hperm].
Defined.

(** X2. The first date of a state in the concatenation of two case tables
    is the earlier of its first dates in the two tables (the one that
    exists, when only one does); and appending records none of which has a
    positive count leaves the [firstcase] table as it is. *)
Theorem X2_firstcase_of_appended_tables :
  forall virus_df more : list Virus.row,
  (forall k, first_obs (firstcase (virus_df ++ more)) k =
             min_opt (first_obs (firstcase virus_df) k)
                     (first_obs (firstcase more) k)) /\
  ((forall s, In s more -> Virus.positive s = None) ->
   firstcase (virus_df ++ more) = firstcase virus_df).
Proof.
  intros virus_df more. split.
  - intros k. apply first_obs_firstcase_unique.
    pose proof (firstcase_first_obs virus_df k) as H1.
    pose proof (firstcase_first_obs more k) as H2.
    destruct (first_obs (firstcase virus_df) k) as [d1 |],
             (first_obs (firstcase more) k) as [d2 |]; simpl.
    + destruct H1 as ((s1 & Hs1 & Hq1 & Hk1 & Hd1) & Hmin1).
      destruct H2 as ((s2 & Hs2 & Hq2 & Hk2 & Hd2) & Hmin2). split.
      * destruct (Z.min_spec d1 d2) as [(_ & ->) | (_ & ->)].
        -- exists s1. rewrite in_app_iff. auto.
        -- exists s2. rewrite in_app_iff. auto.
      * intros s Hs Hq Hk. rewrite in_app_iff in Hs. destruct Hs as [Hs | Hs].
        -- specialize (Hmin1 s Hs Hq Hk). lia.
        -- specialize (Hmin2 s Hs Hq Hk). lia.
    + destruct H1 as ((s1 & Hs1 & Hq1 & Hk1 & Hd1) & Hmin1). split.
      * exists s1. rewrite in_app_iff. auto.
      * intros s Hs Hq Hk. rewrite in_app_iff in Hs. destruct Hs as [Hs | Hs].
        -- exact (Hmin1 s Hs Hq Hk).
        -- elim (H2 s Hs Hq Hk).
    + destruct H2 as ((s2 & Hs2 & Hq2 & Hk2 & Hd2) & Hmin2). split.
      * exists s2. rewrite in_app_iff. auto.
      * intros s Hs Hq Hk. rewrite in_app_iff in Hs. destruct Hs as [Hs | Hs].
        -- elim (H1 s Hs Hq Hk).
        -- exact (Hmin2 s Hs Hq Hk).
    + intros s Hs Hq. rewrite in_app_iff in Hs. destruct Hs as [Hs | Hs].
      * exact (H1 s Hs Hq).
      * exact (H2 s Hs Hq).
  - intros Hnull. unfold firstcase. rewrite filter_app.
    replace (filter (fun s => is_not_null (Virus.positive s)) more)
      with (@nil Virus.row).
    + rewrite app_nil_r. reflexivity.
    + symmetry. induction more as [| s more IH]; simpl.
      * reflexivity.
      * rewrite (Hnull s (or_introl eq_refl)). simpl.
        apply IH. intros s' Hs'. apply Hnull. right. exact Hs'.
Qed.

Lemma X2_firstcase_of_appended_tables_witness :
  first_obs (firstcase (two_reports ++ unreported_then_reported 4)) "WY" =
  Some d20200310 /\
  firstcase (two_reports ++ never_reported) = firstcase two_reports.
Proof.
  destruct (X2_firstcase_of_appended_tables two_reports
              (unreported_then_reported 4)) as (Hmin & _).
  destruct (X2_firstcase_of_appended_tables two_reports never_reported)
    as (_ & Hsame).
  split.
  - rewrite Hmin. reflexivity.
  - apply Hsame. intros s [<- | []]. reflexivity.
Defined.

(** ** The [data] query and the finished table *)

Lemma filter_no_match (census_df : list Census.row) (k : string) :
  ~ In k (map Census.state_cd census_df) ->
  filter (fun c => String.eqb k (Census.state_cd c)) census_df = [].
Proof.
  induction census_df as [| c cs IH]; simpl; intros H.
  - reflexivity.
  - destruct (String.eqb_spec k (Census.state_cd c)) as [Hk | Hk].
    + elim H. left. symmetry. exact Hk.
    + apply IH. intros Hin. apply H. right. exact Hin.
Qed.

(** With one census row per state code, a case row matches at most one
    census row. *)
Lemma filter_one_match (census_df : list Census.row) (s : Virus.row) :
  NoDup (map Census.state_cd census_df) ->
  known_state census_df s = true ->
  exists c,
    filter (fun c => String.eqb (Virus.state s) (Census.state_cd c)) census_df
    = [c].
Proof.
  unfold known_state.
  induction census_df as [| c cs IH]; simpl; intros Hnd Hk.
  - discriminate Hk.
  - inversion Hnd as [| x l Hnotin Hnd']; subst.
    destruct (String.eqb_spec (Virus.state s) (Census.state_cd c)) as [Heq | Hne].
    + exists c. rewrite filter_no_match; [reflexivity |].
      rewrite Heq. exact Hnotin.
    + simpl in Hk. apply IH; assumption.
Qed.

Lemma inner_join_one_per_known (virus_df : list Virus.row)
  (census_df : list Census.row) :
  NoDup (map Census.state_cd census_df) ->
  map fst (inner_join virus_df census_df) =
  filter (known_state census_df) virus_df.
Proof.
  intros Hnd. unfold inner_join.
  induction virus_df as [| s v IH]; simpl.
  - reflexivity.
  - rewrite map_app, IH.
    destruct (known_state census_df s) eqn:Hk.
    + destruct (filter_one_match _ _ Hnd Hk) as (c & ->). reflexivity.
    + rewrite (known_state_false _ _ Hk). reflexivity.
Qed.

Lemma data_sql_keys (virus_df : list Virus.row) (census_df : list Census.row)
  (fc : list FirstCase.row) :
  NoDup (map FirstCase.state fc) ->
  map row_key (data_sql virus_df census_df fc) =
  map case_key (map fst (inner_join virus_df census_df)).
Proof.
  intros Hnd. unfold data_sql, from_joins.
  rewrite (left_join_attach _ _ Hnd), !map_map.
  apply map_ext. intros (s, c). reflexivity.
Qed.

(** The query's columns of the finished rows are the rows of the query. *)
Lemma pipeline_sql (virus_df : list Virus.row) (census_df : list Census.row)
  (rows : list Metric.row) :
  pipeline virus_df census_df = inr rows ->
  map Metric.sql rows = data_sql virus_df census_df (firstcase virus_df).
Proof.
  unfold pipeline, metric_cells. intros H. apply mapM_inr in H.
  induction H as [| r m l rows' Hm _ IH]; simpl.
  - reflexivity.
  - destruct (metric_row_inr _ _ Hm) as (d & _ & Heq).
    rewrite IH, Heq. reflexivity.
Qed.

(** X3. With one census row per state code, the join neither duplicates
    nor reorders case records: the rows of [data], and the rows of the
    finished table when the cells succeed, are the case records whose state
    has a census row, one row each, in the order of the case table. *)
Theorem X3_one_row_per_known_record :
  forall (virus_df : list Virus.row) (census_df : list Census.row),
  NoDup (map Census.state_cd census_df) ->
  map row_key (data_sql virus_df census_df (firstcase virus_df)) =
    map case_key (filter (known_state census_df) virus_df) /\
  (forall rows, pipeline virus_df census_df = inr rows ->
     map (fun m => row_key (Metric.sql m)) rows =
       map case_key (filter (known_state census_df) virus_df) /\
     (List.length rows <= List.length virus_df)%nat).
Proof.
  intros virus_df census_df Hnd.
  assert (Hkeys : map row_key (data_sql virus_df census_df (firstcase virus_df)) =
                  map case_key (filter (known_state census_df) virus_df)).
  { rewrite (data_sql_keys _ _ _ (firstcase_NoDup virus_df)).
    rewrite (inner_join_one_per_known _ _ Hnd). reflexivity. }
  split; [exact Hkeys |].
  intros rows Hrun.
  assert (Hrows : map (fun m => row_key (Metric.sql m)) rows =
                  map case_key (filter (known_state census_df) virus_df)).
  { rewrite <- Hkeys, <- (pipeline_sql _ _ _ Hrun), map_map. reflexivity. }
  split; [exact Hrows |].
  apply (f_equal (@List.length _)) in Hrows. rewrite !length_map in Hrows.
  rewrite Hrows. apply filter_length_le.
Qed.

Lemma X3_one_row_per_known_record_witness :
  exists rows,
    pipeline with_unknown_code [wyoming] = inr rows /\
    map (fun m => row_key (Metric.sql m)) rows =
      [("WY"%string, d20200310); ("WY"%string, d20200310 + 5)].
Proof.
  eexists. split; [vm_compute; reflexivity |].
  assert (Hnd : NoDup (map Census.state_cd [wyoming])).
  { constructor; [intros [] | constructor]. }
  destruct (X3_one_row_per_known_record with_unknown_code [wyoming] Hnd)
    as (_ & Hrows).
  exact (proj1 (Hrows _ eq_refl)).
Defined.

(** X4. When the cells succeed, stated on the two loaded tables, for a
    case table whose dates lie within a span a Timedelta holds: they return
    a table exactly when every case record whose state has a census row
    belongs to a state with at least one record with a non-null positive
    count; otherwise they raise [ValueError]; and every elapsed-day count
    of the table they return is one a Timedelta holds. *)
Theorem X4_success_criterion :
  forall (virus_df : list Virus.row) (census_df : list Census.row),
  dates_in_timedelta_span virus_df ->
  ((exists rows, pipeline virus_df census_df = inr rows) <->
   (forall s, In s virus_df -> known_state census_df s = true ->
      exists s', In s' virus_df /\ Virus.state s' = Virus.state s /\
                 Virus.positive s' <> None)) /\
  (pipeline virus_df census_df = inl ValueError <->
   (exists s, In s virus_df /\ known_state census_df s = true /\
      forall s', In s' virus_df -> Virus.state s' = Virus.state s ->
                 Virus.positive s' = None)) /\
  (forall rows m, pipeline virus_df census_df = inr rows -> In m rows ->
     - max_timedelta_days <= Metric.days_elapsed_since_firstpos m
       <= max_timedelta_days).
Proof.
  intros virus_df census_df Hspan.
  assert (Hdays : forall rows m,
     pipeline virus_df census_df = inr rows -> In m rows ->
     - max_timedelta_days <= Metric.days_elapsed_since_firstpos m
       <= max_timedelta_days).
  { intros rows m Hrun Hin.
    destruct (in_pipeline _ _ _ _ Hrun Hin) as (Hr & Hm).
    destruct (metric_row_inr _ _ Hm) as (d & Hd & Heq).
    apply (in_data_sql _ _ _ _ (firstcase_NoDup virus_df)) in Hr.
    destruct Hr as (s & c & Hs & _ & _ & Hsel).
    assert (Hfo : first_obs (firstcase virus_df) (Virus.state s) = Some d).
    { rewrite <- Hd, Hsel. symmetry. apply (first_obs_dt_attach _ (s, c)). }
    pose proof (firstcase_first_obs virus_df (Virus.state s)) as H.
    rewrite Hfo in H. destruct H as ((s0 & Hs0 & _ & _ & Hd0) & _).
    assert (Heq' : Metric.days_elapsed_since_firstpos m = Virus.obs_dt s - d).
    { rewrite Heq, Hsel. reflexivity. }
    rewrite Heq', <- Hd0.
    pose proof (Hspan s s0 Hs Hs0). pose proof (Hspan s0 s Hs0 Hs). lia. }
  assert (Hok : (exists rows, pipeline virus_df census_df = inr rows) ->
     forall s, In s virus_df -> known_state census_df s = true ->
       exists s', In s' virus_df /\ Virus.state s' = Virus.state s /\
                  Virus.positive s' <> None).
  { intros (rows & Hrun) s Hs Hk.
    apply known_state_true in Hk. destruct Hk as (c & Hc & Hst).
    assert (Hrow : In (select (attach (firstcase virus_df) (s, c)))
                     (data_sql virus_df census_df (firstcase virus_df))).
    { apply (in_data_sql _ _ _ _ (firstcase_NoDup virus_df)).
      exists s, c. auto. }
    unfold pipeline, metric_cells in Hrun. apply mapM_inr in Hrun.
    destruct (Forall2_In_l _ _ _ _ Hrun Hrow) as (m & _ & Hm).
    destruct (metric_row_inr _ _ Hm) as (d & Hd & _).
    rewrite first_obs_dt_attach in Hd. simpl in Hd.
    pose proof (firstcase_first_obs virus_df (Virus.state s)) as H.
    rewrite Hd in H. destruct H as ((s' & Hs' & Hq & Hk' & _) & _).
    exists s'. auto. }
  assert (Hbad : (exists s, In s virus_df /\ known_state census_df s = true /\
       forall s', In s' virus_df -> Virus.state s' = Virus.state s ->
                  Virus.positive s' = None) ->
     pipeline virus_df census_df = inl ValueError).
  { intros (s & Hs & Hk & Hnull).
    destruct (pipeline virus_df census_df) as [e | rows] eqn:Hrun.
    - apply pipeline_inl in Hrun. destruct Hrun as (-> & _). reflexivity.
    - destruct (Hok (ex_intro _ rows eq_refl) s Hs Hk) as (s' & Hs' & Hst & Hq).
      elim Hq. apply Hnull; assumption. }
  split; [| split; [| exact Hdays]]; split.
  - exact Hok.
  - intros Hall. apply pipeline_total. intros r Hr.
    apply (in_data_sql _ _ _ _ (firstcase_NoDup virus_df)) in Hr.
    destruct Hr as (s & c & Hs & Hc & Hst & ->).
    rewrite first_obs_dt_attach. simpl.
    destruct (Hall s Hs) as (s' & Hs' & Hst' & Hq).
    { apply known_state_true. exists c. auto. }
    pose proof (firstcase_first_obs virus_df (Virus.state s)) as H.
    destruct (first_obs (firstcase virus_df) (Virus.state s)); [discriminate |].
    elim (H s' Hs' Hq Hst').
  - intros Hrun. apply pipeline_inl in Hrun. destruct Hrun as (_ & r & Hr & Hnone).
    apply (in_data_sql _ _ _ _ (firstcase_NoDup virus_df)) in Hr.
    destruct Hr as (s & c & Hs & Hc & Hst & ->).
    rewrite first_obs_dt_attach in Hnone. simpl in Hnone.
    exists s. split; [exact Hs |]. split.
    + apply known_state_true. exists c. auto.
    + intros s' Hs' Hst'.
      pose proof (firstcase_first_obs virus_df (Virus.state s)) as H.
      rewrite Hnone in H. specialize (H s' Hs').
      unfold qualifies in H. destruct (Virus.positive s'); [| reflexivity].
      elim H; [discriminate | exact Hst'].
  - exact Hbad.
Qed.

Lemma X4_success_criterion_witness :
  (exists rows, pipeline (unreported_then_reported 4) [wyoming] = inr rows) /\
  pipeline never_reported [wyoming] = inl ValueError.
Proof.
  assert (Hspan4 : dates_in_timedelta_span (unreported_then_reported 4)).
  { intros s s' [<- | [<- | []]] [<- | [<- | []]]; discriminate. }
  assert (Hspan0 : dates_in_timedelta_span never_reported).
  { intros s s' [<- | []] [<- | []]. discriminate. }
  split.
  - apply (proj2 (proj1 (X4_success_criterion (unreported_then_reported 4)
                           [wyoming] Hspan4))).
    intros s Hs _. exists (case_of "WY" d20200310 (Some 10)).
    split; [right; left; reflexivity |]. split.
    + destruct Hs as [<- | [<- | []]]; reflexivity.
    + discriminate.
  - apply (proj2 (proj1 (proj2 (X4_success_criterion never_reported [wyoming]
                                  Hspan0)))).
    exists (case_of "WY" d20200310 None).
    split; [left; reflexivity |]. split; [reflexivity |].
    intros s' [<- | []] _. reflexivity.
Defined.

(** The baseline and the elapsed days of a finished row, read off
    [firstcase]. *)
Lemma pipeline_row_baseline (virus_df : list Virus.row)
  (census_df : list Census.row) (rows : list Metric.row) (m : Metric.row) :
  pipeline virus_df census_df = inr rows -> In m rows ->
  exists d,
    first_obs (firstcase virus_df) (Sql.state (Metric.sql m)) = Some d /\
    Sql.first_obs_dt (Metric.sql m) = Some d /\
    Metric.days_elapsed_since_firstpos m = Sql.obs_dt (Metric.sql m) - d.
Proof.
  intros Hrun Hin.
  destruct (in_pipeline _ _ _ _ Hrun Hin) as (Hr & Hm).
  destruct (metric_row_inr _ _ Hm) as (d & Hd & Heq).
  exists d. split; [| split; [exact Hd | rewrite Heq; reflexivity]].
  apply (in_data_sql _ _ _ _ (firstcase_NoDup virus_df)) in Hr.
  destruct Hr as (s & c & _ & _ & _ & Hsel).
  rewrite <- Hd, Hsel. symmetry. apply (first_obs_dt_attach _ (s, c)).
Qed.

(** X5. All finished rows of a state share one baseline, the state's
    earliest date with a reported positive count: it is the date of a case
    record of the state with a non-null positive count, no such record is
    earlier, and the elapsed days of two rows of the state differ by the
    difference of their observation dates. *)
Theorem X5_rows_of_a_state_share_the_baseline :
  forall (virus_df : list Virus.row) (census_df : list Census.row)
         (rows : list Metric.row),
  pipeline virus_df census_df = inr rows ->
  (forall m, In m rows ->
     exists d,
       Sql.first_obs_dt (Metric.sql m) = Some d /\
       (exists s, In s virus_df /\ Virus.positive s <> None /\
                  Virus.state s = Sql.state (Metric.sql m) /\
                  Virus.obs_dt s = d) /\
       (forall s, In s virus_df -> Virus.positive s <> None ->
                  Virus.state s = Sql.state (Metric.sql m) ->
                  d <= Virus.obs_dt s)) /\
  (forall m1 m2, In m1 rows -> In m2 rows ->
     Sql.state (Metric.sql m1) = Sql.state (Metric.sql m2) ->
     Sql.first_obs_dt (Metric.sql m1) = Sql.first_obs_dt (Metric.sql m2) /\
     Metric.days_elapsed_since_firstpos m1
       - Metric.days_elapsed_since_firstpos m2 =
     Sql.obs_dt (Metric.sql m1) - Sql.obs_dt (Metric.sql m2)).
Proof.
  intros virus_df census_df rows Hrun. split.
  - intros m Hin.
    destruct (pipeline_row_baseline _ _ _ _ Hrun Hin) as (d & Hfo & Hd & _).
    exists d. split; [exact Hd |].
    pose proof (firstcase_first_obs virus_df (Sql.state (Metric.sql m))) as H.
    rewrite Hfo in H. exact H.
  - intros m1 m2 Hin1 Hin2 Hst.
    destruct (pipeline_row_baseline _ _ _ _ Hrun Hin1) as (d1 & Hfo1 & Hd1 & He1).
    destruct (pipeline_row_baseline _ _ _ _ Hrun Hin2) as (d2 & Hfo2 & Hd2 & He2).
    rewrite Hst, Hfo2 in Hfo1. inversion Hfo1; subst d2.
    split; [congruence | lia].
Qed.

Lemma X5_rows_of_a_state_share_the_baseline_witness :
  exists m1 m2,
    pipeline (unreported_then_reported 4) [wyoming] = inr [m1; m2] /\
    Sql.first_obs_dt (Metric.sql m1) = Sql.first_obs_dt (Metric.sql m2) /\
    Metric.days_elapsed_since_firstpos m1
      - Metric.days_elapsed_since_firstpos m2 =
    Sql.obs_dt (Metric.sql m1) - Sql.obs_dt (Metric.sql m2).
Proof.
  eexists. eexists. split; [vm_compute; reflexivity |].
  apply (proj2 (X5_rows_of_a_state_share_the_baseline
                  (unreported_then_reported 4) [wyoming] _ eq_refl)).
  - left. reflexivity.
  - right. left. reflexivity.
  - reflexivity.
Defined.

(** ** The multiplier and the rates *)

Lemma key_lt_ltb (x y : float) :
  key_lt (pos_key x) (pos_key y) = true -> (x <? y)%float = true.
Proof.
  unfold pos_key. rewrite FloatAxioms.ltb_spec. unfold SFltb.
  destruct (Prim2SF x) as [sx | sx | | [|] mx ex]; simpl; try discriminate.
  destruct (Prim2SF y) as [sy | sy | | [|] my ey]; simpl; try discriminate.
  intros H. apply orb_true_iff in H. destruct H as [H | H].
  - apply Z.ltb_lt in H. rewrite (proj2 (Z.compare_lt_iff ex ey) H). reflexivity.
  - apply andb_true_iff in H. destruct H as (He & Hm).
    apply Z.eqb_eq in He. apply Z.ltb_lt in Hm. subst ey.
    rewrite Z.compare_refl, Pos.compare_cont_spec. simpl.
    change (Z.pos mx < Z.pos my) with (mx < my)%positive in Hm.
    rewrite (proj2 (Pos.compare_lt_iff mx my) Hm). reflexivity.
Qed.

Lemma key_lt_trans (a b c : option (Z * Z)) :
  key_lt a b = true -> key_lt b c = true -> key_lt a c = true.
Proof.
  destruct a as [(e1, m1) |], b as [(e2, m2) |], c as [(e3, m3) |]; simpl;
    try discriminate.
  rewrite !orb_true_iff, !andb_true_iff, !Z.ltb_lt, !Z.eqb_eq. lia.
Qed.

(** From one day to the next the multiplier grows, for every day count
    from 1 that a Timedelta holds; checked by running the division. *)
Lemma multiplier_next_day_upto_max :
  all_from
    (fun d => key_lt (pos_key (multiplier d)) (pos_key (multiplier (d + 1))))
    (Z.to_nat (max_timedelta_days - 1)) 1 = true.
Proof. vm_compute. reflexivity. Qed.

Lemma multiplier_positive_upto_max :
  all_from (fun d => (0 <? multiplier d)%float)
    (Z.to_nat max_timedelta_days) 1 = true.
Proof. vm_compute. reflexivity. Qed.

Lemma multiplier_key_increasing (n : nat) (d : Z) :
  1 <= d -> d + Z.of_nat (S n) <= max_timedelta_days ->
  key_lt (pos_key (multiplier d))
         (pos_key (multiplier (d + Z.of_nat (S n)))) = true.
Proof.
  induction n as [| n IH]; intros Hd Hmax.
  - apply (all_from_spec _ _ _ multiplier_next_day_upto_max).
    unfold max_timedelta_days in *. lia.
  - apply (key_lt_trans _ (pos_key (multiplier (d + Z.of_nat (S n))))).
    + apply IH; lia.
    + replace (d + Z.of_nat (S (S n))) with (d + Z.of_nat (S n) + 1) by lia.
      apply (all_from_spec _ _ _ multiplier_next_day_upto_max).
      unfold max_timedelta_days in *. lia.
Qed.

Lemma multiplier_increasing (d d' : Z) :
  0 <= d -> d < d' -> d' <= max_timedelta_days ->
  (multiplier d <? multiplier d')%float = true.
Proof.
  intros Hd Hlt Hmax.
  destruct (Z.eq_dec d 0) as [-> | Hne].
  - change (multiplier 0) with 0%float.
    apply (all_from_spec _ _ _ multiplier_positive_upto_max).
    unfold max_timedelta_days in *. lia.
  - apply key_lt_ltb.
    replace d' with (d + Z.of_nat (S (Z.to_nat (d' - d - 1)))) by lia.
    apply multiplier_key_increasing; lia.
Qed.

(** X6. The multiplier grows with the elapsed days: of two finished rows
    with non-negative day counts (that a Timedelta holds), the one with
    more elapsed days has the strictly larger multiplier. *)
Theorem X6_multiplier_strictly_increasing :
  forall (virus_df : list Virus.row) (census_df : list Census.row)
         (rows : list Metric.row) (m1 m2 : Metric.row),
  pipeline virus_df census_df = inr rows -> In m1 rows -> In m2 rows ->
  0 <= Metric.days_elapsed_since_firstpos m1 ->
  Metric.days_elapsed_since_firstpos m1 < Metric.days_elapsed_since_firstpos m2 ->
  Metric.days_elapsed_since_firstpos m2 <= max_timedelta_days ->
  (Metric.adj_multiplier m1 <? Metric.adj_multiplier m2)%float = true.
Proof.
  intros virus_df census_df rows m1 m2 Hrun Hin1 Hin2 H0 Hlt Hmax.
  destruct (in_pipeline _ _ _ _ Hrun Hin1) as (_ & Hm1).
  destruct (in_pipeline _ _ _ _ Hrun Hin2) as (_ & Hm2).
  destruct (metric_row_inr _ _ Hm1) as (d1 & _ & Heq1).
  destruct (metric_row_inr _ _ Hm2) as (d2 & _ & Heq2).
  assert (Hmult1 : Metric.adj_multiplier m1 =
                   multiplier (Metric.days_elapsed_since_firstpos m1))
    by (rewrite Heq1; reflexivity).
  assert (Hmult2 : Metric.adj_multiplier m2 =
                   multiplier (Metric.days_elapsed_since_firstpos m2))
    by (rewrite Heq2; reflexivity).
  rewrite Hmult1, Hmult2. apply multiplier_increasing; assumption.
Qed.

Lemma X6_multiplier_strictly_increasing_witness :
  exists m1 m2,
    pipeline two_reports [wyoming] = inr [m1; m2] /\
    (Metric.adj_multiplier m1 <? Metric.adj_multiplier m2)%float = true.
Proof.
  eexists. eexists. split; [vm_compute; reflexivity |].
  apply (X6_multiplier_strictly_increasing two_reports [wyoming] _ _ _ eq_refl).
  - left. reflexivity.
  - right. left. reflexivity.
  - vm_compute. discriminate.
  - reflexivity.
  - vm_compute. discriminate.
Defined.

(** Before the baseline the multiplier is above 1, for every day count
    down to the least a Timedelta holds; checked by running the division. *)
Lemma multiplier_above_one_before_baseline :
  all_from (fun d => (1 <? multiplier d)%float)
    (Z.to_nat (max_timedelta_days - 1)) (- max_timedelta_days) = true.
Proof. vm_compute. reflexivity. Qed.

(** X7. Rows dated before their state's baseline are not discounted: a
    finished row whose elapsed-day count is -1 has the multiplier -inf, and
    one whose count is -2 or less (down to the least a Timedelta holds) has
    a multiplier above 1, so its adjusted rate is the rate times more than
    one. *)
Theorem X7_multiplier_before_baseline :
  forall (virus_df : list Virus.row) (census_df : list Census.row)
         (rows : list Metric.row) (m : Metric.row),
  pipeline virus_df census_df = inr rows -> In m rows ->
  (Metric.days_elapsed_since_firstpos m = -1 ->
     Metric.adj_multiplier m = neg_infinity) /\
  (- max_timedelta_days <= Metric.days_elapsed_since_firstpos m <= -2 ->
     (1 <? Metric.adj_multiplier m)%float = true).
Proof.
  intros virus_df census_df rows m Hrun Hin.
  destruct (in_pipeline _ _ _ _ Hrun Hin) as (_ & Hm).
  destruct (metric_row_inr _ _ Hm) as (d & _ & Heq).
  assert (Hmult : Metric.adj_multiplier m =
                  multiplier (Metric.days_elapsed_since_firstpos m))
    by (rewrite Heq; reflexivity).
  rewrite Hmult. split.
  - intros ->. reflexivity.
  - intros Hrange.
    apply (all_from_spec _ _ _ multiplier_above_one_before_baseline).
    unfold max_timedelta_days in *. lia.
Qed.

Lemma X7_multiplier_before_baseline_witness :
  exists rows m,
    pipeline (unreported_then_reported 4) [wyoming] = inr rows /\
    In m rows /\
    Metric.days_elapsed_since_firstpos m = -4 /\
    (1 <? Metric.adj_multiplier m)%float = true.
Proof.
  eexists. eexists. split; [vm_compute; reflexivity |].
  split; [left; reflexivity |]. split; [reflexivity |].
  apply (X7_multiplier_before_baseline (unreported_then_reported 4) [wyoming]
           _ _ eq_refl (or_introl eq_refl)).
  vm_compute. split; discriminate.
Defined.

Lemma binary_round_sign (s : bool) (m : positive) (e : Z) :
  has_sign s (binary_round prec emax s m e).
Proof.
  unfold binary_round.
  destruct (shl_align m e _) as (mz, ez). apply binary_round_aux_sign.
Qed.

(** The sum of two floats without a minus sign has none. *)
Lemma SF64add_sign (x y : spec_float) :
  has_sign false x -> has_sign false y -> has_sign false (SF64add x y).
Proof.
  unfold SF64add, SFadd.
  destruct x as [sx | sx | | sx mx ex], y as [sy | sy | | sy my ey]; simpl;
    intros Hx Hy; subst; simpl; try reflexivity; try exact I.
  apply (binary_round_sign false).
Qed.

Lemma multiplier_sign (days : Z) :
  0 <= days -> has_sign false (Prim2SF (multiplier days)).
Proof.
  intros Hd. unfold multiplier.
  rewrite FloatAxioms.div_spec, FloatAxioms.add_spec.
  assert (Hs : has_sign false (Prim2SF (Z2float days))).
  { pose proof (Z2float_sign days) as H.
    replace (days <? 0) with false in H by (symmetry; apply Z.ltb_ge; exact Hd).
    exact H. }
  apply (SF64div_sign false false); [exact Hs |].
  apply SF64add_sign; [reflexivity | exact Hs].
Qed.

Lemma per100k_sign_valid (count population : Z) :
  0 <= count -> 0 < population ->
  has_sign false (Prim2SF (per100k count population)).
Proof.
  intros Hc Hp. pose proof (per100k_sign count population) as H.
  replace (count <? 0) with false in H by (symmetry; apply Z.ltb_ge; exact Hc).
  replace (population <? 0) with false in H by (symmetry; apply Z.ltb_ge; lia).
  exact H.
Qed.

(** X8. With a positive population and a non-negative count, a rate is
    never below zero; and when the elapsed-day count is non-negative as
    well, neither is the adjusted rate.  This holds for the positive rate
    and the death rate alike, on every finished row. *)
Theorem X8_rates_are_not_negative :
  forall (virus_df : list Virus.row) (census_df : list Census.row)
         (rows : list Metric.row) (m : Metric.row),
  pipeline virus_df census_df = inr rows -> In m rows ->
  0 < Sql.population (Metric.sql m) ->
  (0 <= Sql.positive (Metric.sql m) ->
     (Metric.pos_per100k m <? 0)%float = false /\
     (0 <= Metric.days_elapsed_since_firstpos m ->
      (Metric.adj_pos_per100k m <? 0)%float = false)) /\
  (0 <= Sql.death (Metric.sql m) ->
     (Metric.death_per100k m <? 0)%float = false /\
     (0 <= Metric.days_elapsed_since_firstpos m ->
      (Metric.adj_death_per100k m <? 0)%float = false)).
Proof.
  intros virus_df census_df rows m Hrun Hin Hpop.
  destruct (in_pipeline _ _ _ _ Hrun Hin) as (_ & Hm).
  destruct (metric_row_inr _ _ Hm) as (d & _ & Heq).
  assert (Hadj : forall count, 0 <= count ->
     (per100k count (Sql.population (Metric.sql m)) <? 0)%float = false /\
     (0 <= Metric.days_elapsed_since_firstpos m ->
      (per100k count (Sql.population (Metric.sql m))
       * multiplier (Metric.days_elapsed_since_firstpos m) <? 0)%float = false)).
  { intros count Hc.
    pose proof (per100k_sign_valid count _ Hc Hpop) as Hrate. split.
    - apply positive_not_below_zero. exact Hrate.
    - intros Hd. apply positive_not_below_zero.
      rewrite FloatAxioms.mul_spec.
      apply (SF64mul_sign false false); [exact Hrate |].
      apply multiplier_sign. exact Hd. }
  rewrite Heq in *. simpl in *. split; intros Hc; apply Hadj; exact Hc.
Qed.

Lemma X8_rates_are_not_negative_witness :
  exists rows m,
    pipeline two_reports [wyoming] = inr rows /\ In m rows /\
    (Metric.pos_per100k m <? 0)%float = false /\
    (Metric.adj_pos_per100k m <? 0)%float = false.
Proof.
  eexists. eexists. split; [vm_compute; reflexivity |].
  split; [right; left; reflexivity |].
  assert (Hpop : 0 < 500000) by reflexivity.
  assert (Hpos : 0 <= 50) by discriminate.
  assert (Hdays : 0 <= 5) by discriminate.
  destruct (X8_rates_are_not_negative two_reports [wyoming] _ _ eq_refl
              (or_intror (or_introl eq_refl)) Hpop) as (Hp & _).
  destruct (Hp Hpos) as (Hrate & Hadj).
  split; [exact Hrate | exact (Hadj Hdays)].
Defined.

Lemma mul_zero_number (x : float) :
  is_number x = true -> (x * 0 =? 0)%float = true.
Proof.
  unfold is_number. rewrite FloatAxioms.eqb_spec, FloatAxioms.mul_spec.
  change (Prim2SF 0) with (S754_zero false).
  destruct (Prim2SF x) as [s | s | | s mx ex]; simpl; try discriminate;
    reflexivity.
Qed.

(** X9. Every state of the finished table has a day-zero row, the row of
    the record that set the baseline; and on a row with zero elapsed days
    the multiplier is 0 and each adjusted rate is zero whenever the rate
    itself is a number. *)
Theorem X9_day_zero_row :
  forall (virus_df : list Virus.row) (census_df : list Census.row)
         (rows : list Metric.row) (m : Metric.row),
  pipeline virus_df census_df = inr rows -> In m rows ->
  (exists m0, In m0 rows /\
     Sql.state (Metric.sql m0) = Sql.state (Metric.sql m) /\
     Sql.first_obs_dt (Metric.sql m0) = Some (Sql.obs_dt (Metric.sql m0)) /\
     Metric.days_elapsed_since_firstpos m0 = 0) /\
  (Metric.days_elapsed_since_firstpos m = 0 ->
     Metric.adj_multiplier m = 0%float /\
     (is_number (Metric.pos_per100k m) = true ->
      (Metric.adj_pos_per100k m =? 0)%float = true) /\
     (is_number (Metric.death_per100k m) = true ->
      (Metric.adj_death_per100k m =? 0)%float = true)).
Proof.
  intros virus_df census_df rows m Hrun Hin. split.
  - destruct (pipeline_row_baseline _ _ _ _ Hrun Hin) as (d & Hfo & _ & _).
    pose proof (firstcase_first_obs virus_df (Sql.state (Metric.sql m))) as H.
    rewrite Hfo in H. destruct H as ((s0 & Hs0 & Hq0 & Hk0 & Hd0) & _).
    destruct (in_pipeline _ _ _ _ Hrun Hin) as (Hr & _).
    apply (in_data_sql _ _ _ _ (firstcase_NoDup virus_df)) in Hr.
    destruct Hr as (s & c & _ & Hc & Hst & Hsel).
    assert (Hstate : Sql.state (Metric.sql m) = Virus.state s)
      by (rewrite Hsel; reflexivity).
    assert (Hrow0 : In (select (attach (firstcase virus_df) (s0, c)))
                      (data_sql virus_df census_df (firstcase virus_df))).
    { apply (in_data_sql _ _ _ _ (firstcase_NoDup virus_df)).
      exists s0, c. repeat (split; [assumption || congruence |]). reflexivity. }
    pose proof Hrun as Hall. unfold pipeline, metric_cells in Hall.
    apply mapM_inr in Hall.
    destruct (Forall2_In_l _ _ _ _ Hall Hrow0) as (m0 & Hin0 & Hm0).
    destruct (metric_row_inr _ _ Hm0) as (d0 & Hd & Heq0).
    rewrite first_obs_dt_attach in Hd. simpl in Hd.
    rewrite Hk0, Hfo in Hd. inversion Hd; subst d0.
    exists m0. split; [exact Hin0 |]. rewrite Heq0. simpl.
    split; [exact Hk0 |]. split.
    + rewrite Hk0, Hfo, Hd0. reflexivity.
    + lia.
  - intros Hzero.
    destruct (in_pipeline _ _ _ _ Hrun Hin) as (_ & Hm).
    destruct (metric_row_inr _ _ Hm) as (d & _ & Heq).
    assert (Hd : Sql.obs_dt (Metric.sql m) - d = 0)
      by (rewrite Heq in Hzero; exact Hzero).
    rewrite Heq. simpl. rewrite Heq in Hd. simpl in Hd. rewrite Hd.
    change (multiplier 0) with 0%float.
    split; [reflexivity |]. split; apply mul_zero_number.
Qed.

Lemma X9_day_zero_row_witness :
  exists rows m,
    pipeline two_reports [wyoming] = inr rows /\ In m rows /\
    Metric.adj_multiplier m = 0%float /\
    (Metric.adj_pos_per100k m =? 0)%float = true.
Proof.
  eexists. eexists. split; [vm_compute; reflexivity |].
  split; [left; reflexivity |].
  destruct (X9_day_zero_row two_reports [wyoming] _ _ eq_refl
              (or_introl eq_refl)) as (_ & Hzero).
  destruct (Hzero eq_refl) as (Hmult & Hpos & _).
  split; [exact Hmult | apply Hpos; reflexivity].
Defined.

(** ** The state columns of [get_census_data] *)

Lemma mapM_lookup_known {A : Type} (lookup : string -> option State)
  (attr : State -> A) (codes : list string) :
  (forall code, In code codes -> lookup code <> None) ->
  exists l,
    mapM (lookup_attr lookup attr) codes = inr l /\
    Forall2 (fun code a => exists st, lookup code = Some st /\ a = attr st)
      codes l.
Proof.
  induction codes as [| code codes IH]; intros Hknown.
  - exists []. split; [reflexivity | constructor].
  - destruct IH as (l & Hl & Hall).
    { intros code' Hin. apply Hknown. right. exact Hin. }
    destruct (lookup code) as [st |] eqn:Hst.
    + exists (attr st :: l). split.
      * simpl. unfold lookup_attr at 1. rewrite Hst. simpl. rewrite Hl.
        reflexivity.
      * constructor; [exists st; auto | exact Hall].
    + elim (Hknown code (or_introl eq_refl) Hst).
Qed.

Lemma combine_labelled (lookup : string -> option State)
  (raw : list Census.raw) (cds names : list string) :
  Forall2 (fun code a => exists st, lookup code = Some st /\ a = abbr st)
    (map Census.raw_state raw) cds ->
  Forall2 (fun code a => exists st, lookup code = Some st /\ a = name st)
    (map Census.raw_state raw) names ->
  Forall2 (labelled lookup) raw
    (map
       (fun x =>
          {| Census.state := Census.raw_state (fst x);
             Census.population_total := Census.raw_population_total (fst x);
             Census.estimates := Census.raw_estimates (fst x);
             Census.state_cd := fst (snd x);
             Census.state_name := snd (snd x) |})
       (combine raw (combine cds names))).
Proof.
  revert cds names. induction raw as [| r raw IH]; intros cds names Hc Hn.
  - constructor.
  - inversion Hc as [| code cd codes cds' (st & Hst & Hcd) Hc']; subst.
    inversion Hn as [| code nm codes names' (st' & Hst' & Hnm) Hn']; subst.
    simpl. constructor.
    + unfold labelled. simpl. repeat (split; [reflexivity |]).
      exists st. rewrite Hst in Hst'. inversion Hst'; subst st'. auto.
    + apply IH; assumption.
Qed.

Lemma add_state_columns_known (lookup : string -> option State)
  (raw : list Census.raw) :
  (forall r, In r raw -> lookup (Census.raw_state r) <> None) ->
  exists census_df,
    add_state_columns lookup raw = inr census_df /\
    Forall2 (labelled lookup) raw census_df.
Proof.
  intros Hknown.
  assert (Hcodes : forall code, In code (map Census.raw_state raw) ->
                                lookup code <> None).
  { intros code Hin. apply in_map_iff in Hin. destruct Hin as (r & <- & Hr).
    apply Hknown. exact Hr. }
  destruct (mapM_lookup_known lookup abbr _ Hcodes) as (cds & Hcds & Hc).
  destruct (mapM_lookup_known lookup name _ Hcodes) as (names & Hnames & Hn).
  eexists. split.
  - unfold add_state_columns. rewrite Hcds, Hnames. reflexivity.
  - apply combine_labelled; assumption.
Qed.

Lemma add_state_columns_inr (lookup : string -> option State)
  (raw : list Census.raw) (census_df : list Census.row) :
  add_state_columns lookup raw = inr census_df ->
  (forall r, In r raw -> lookup (Census.raw_state r) <> None) /\
  Forall2 (labelled lookup) raw census_df.
Proof.
  intros Hload.
  assert (Hknown : forall r, In r raw -> lookup (Census.raw_state r) <> None).
  { intros r Hr Hnone.
    assert (Hfail : add_state_columns lookup raw = inl AttributeError).
    { unfold add_state_columns.
      rewrite (mapM_lookup_unknown lookup abbr _ (Census.raw_state r));
        [reflexivity | apply in_map; exact Hr | exact Hnone]. }
    congruence. }
  split; [exact Hknown |].
  destruct (add_state_columns_known lookup raw Hknown) as (census' & Hload' & Hall).
  congruence.
Qed.

Lemma add_state_columns_inl (lookup : string -> option State)
  (raw : list Census.raw) (e : Error) :
  add_state_columns lookup raw = inl e ->
  e = AttributeError /\
  exists r, In r raw /\ lookup (Census.raw_state r) = None.
Proof.
  intros H. unfold add_state_columns in H.
  assert (Hcol : forall (A : Type) (attr : State -> A),
            mapM (lookup_attr lookup attr) (map Census.raw_state raw) = inl e ->
            e = AttributeError /\
            exists r, In r raw /\ lookup (Census.raw_state r) = None).
  { intros A attr Hcol. apply mapM_lookup_inl in Hcol.
    destruct Hcol as (-> & code & Hin & Hnone). split; [reflexivity |].
    apply in_map_iff in Hin. destruct Hin as (r & <- & Hr). exists r. auto. }
  apply bind_inl in H. destruct H as [H | (cds & _ & H)].
  - exact (Hcol _ _ H).
  - apply bind_inl in H. destruct H as [H | (names & _ & H)].
    + exact (Hcol _ _ H).
    + discriminate H.
Qed.

(** X10. The cleanup of [get_census_data] labels the census rows exactly
    when the census result has rows and the lookup knows every numeric
    code; it then returns the rows in their order, one for one, each with
    its code, population and estimates unchanged and with the abbreviation
    and the name of the one state the lookup finds for its code.  On a
    result without rows it raises [KeyError]; on a result with a code the
    lookup does not know it raises [AttributeError]. *)
Theorem X10_state_columns_of_known_codes :
  forall (lookup : string -> option State) (raw : list Census.raw),
  ((raw <> [] /\
    forall r, In r raw -> lookup (Census.raw_state r) <> None) <->
   exists census_df, data_cleanup lookup raw = inr census_df) /\
  (raw = [] <-> data_cleanup lookup raw = inl KeyError) /\
  ((raw <> [] /\
    exists r, In r raw /\ lookup (Census.raw_state r) = None) <->
   data_cleanup lookup raw = inl AttributeError) /\
  (forall census_df, data_cleanup lookup raw = inr census_df ->
     Forall2 (labelled lookup) raw census_df /\
     List.length census_df = List.length raw /\
     census_df <> []).
Proof.
  intros lookup raw. destruct raw as [| r0 raw'].
  - simpl. split; [| split; [| split]].
    + split; [intros (H & _); elim H; reflexivity | intros (c & H); discriminate H].
    + split; reflexivity.
    + split; [intros (H & _); elim H; reflexivity | discriminate].
    + intros c H. discriminate H.
  - change (data_cleanup lookup (r0 :: raw'))
      with (add_state_columns lookup (r0 :: raw')).
    split; [| split; [| split]].
    + split.
      * intros (_ & Hknown).
        destruct (add_state_columns_known lookup _ Hknown) as (c & H & _).
        exists c. exact H.
      * intros (c & Hload). split; [discriminate |].
        exact (proj1 (add_state_columns_inr _ _ _ Hload)).
    + split; [discriminate |]. intros H.
      apply add_state_columns_inl in H. destruct H as (H & _). discriminate H.
    + split.
      * intros (_ & r & Hr & Hnone). unfold add_state_columns.
        rewrite (mapM_lookup_unknown lookup abbr _ (Census.raw_state r));
          [reflexivity | apply in_map; exact Hr | exact Hnone].
      * intros H. split; [discriminate |].
        exact (proj2 (add_state_columns_inl _ _ _ H)).
    + intros c Hload.
      pose proof (proj2 (add_state_columns_inr _ _ _ Hload)) as Hall.
      split; [exact Hall |]. split.
      * symmetry. exact (Forall2_length Hall).
      * inversion Hall; discriminate.
Qed.

Lemma X10_state_columns_of_known_codes_witness :
  (exists c,
     data_cleanup lookup_wy [Census.mkRaw "56" 500000 no_estimates] = inr [c] /\
     labelled lookup_wy (Census.mkRaw "56" 500000 no_estimates) c /\
     Census.state_cd c = "WY"%string) /\
  data_cleanup lookup_wy [] = inl KeyError /\
  data_cleanup lookup_wy [Census.mkRaw "99" 1 no_estimates] = inl AttributeError.
Proof.
  split; [| split].
  - eexists. split; [reflexivity |].
    destruct (X10_state_columns_of_known_codes lookup_wy
                [Census.mkRaw "56" 500000 no_estimates]) as (_ & _ & _ & Hrows).
    destruct (Hrows _ eq_refl) as (Hall & _).
    inversion Hall; subst. split; [assumption | reflexivity].
  - apply (proj1 (proj1 (proj2 (X10_state_columns_of_known_codes lookup_wy [])))).
    reflexivity.
  - apply (proj1 (proj1 (proj2 (proj2 (X10_state_columns_of_known_codes
                                         lookup_wy
                                         [Census.mkRaw "99" 1 no_estimates]))))).
    split; [discriminate |].
    exists (Census.mkRaw "99" 1 no_estimates).
    split; [left; reflexivity | reflexivity].
Defined.

Lemma labelled_state_cd_NoDup (lookup : string -> option State)
  (raw : list Census.raw) (census_df : list Census.row) :
  NoDup (map Census.raw_state raw) ->
  (forall r r' st st', In r raw -> In r' raw ->
     lookup (Census.raw_state r) = Some st ->
     lookup (Census.raw_state r') = Some st' ->
     abbr st = abbr st' -> Census.raw_state r = Census.raw_state r') ->
  Forall2 (labelled lookup) raw census_df ->
  NoDup (map Census.state_cd census_df).
Proof.
  intros Hnd Hinj Hall.
  induction Hall as [| r c raw' census' Hrc Hall IH]; simpl.
  - constructor.
  - inversion Hnd as [| x l Hnotin Hnd']; subst. constructor.
    + intros Hin. apply in_map_iff in Hin. destruct Hin as (c' & Hcd & Hc').
      destruct (Forall2_In_r _ _ _ _ Hall Hc') as (r' & Hr' & Hrc').
      destruct Hrc as (_ & _ & _ & st & Hst & Habbr & _).
      destruct Hrc' as (_ & _ & _ & st' & Hst' & Habbr' & _).
      apply Hnotin.
      rewrite (Hinj r r' st st' (or_introl eq_refl) (or_intror Hr') Hst Hst').
      * apply in_map. exact Hr'.
      * congruence.
    + apply IH; [exact Hnd' |].
      intros r1 r2 st1 st2 H1 H2. apply Hinj; right; assumption.
Qed.

(** X11. From the census load to the join: when the census result has one
    row per numeric code and the lookup gives different codes of the result
    different abbreviations, the loaded census table has one row per
    [state_cd], and the finished table then has exactly one row for every
    case record of a known state, in the order of the case table. *)
Theorem X11_loaded_census_does_not_duplicate_records :
  forall (lookup : string -> option State) (raw : list Census.raw)
         (census_df : list Census.row) (virus_df : list Virus.row),
  NoDup (map Census.raw_state raw) ->
  (forall r r' st st', In r raw -> In r' raw ->
     lookup (Census.raw_state r) = Some st ->
     lookup (Census.raw_state r') = Some st' ->
     abbr st = abbr st' -> Census.raw_state r = Census.raw_state r') ->
  add_state_columns lookup raw = inr census_df ->
  NoDup (map Census.state_cd census_df) /\
  (forall rows, pipeline virus_df census_df = inr rows ->
     map (fun m => row_key (Metric.sql m)) rows =
     map case_key (filter (known_state census_df) virus_df)).
Proof.
  intros lookup raw census_df virus_df Hnd Hinj Hload.
  pose proof (proj2 (add_state_columns_inr _ _ _ Hload)) as Hall.
  pose proof (labelled_state_cd_NoDup _ _ _ Hnd Hinj Hall) as Hcd.
  split; [exact Hcd |].
  intros rows Hrun.
  rewrite <- (inner_join_one_per_known _ _ Hcd).
  rewrite <- (data_sql_keys _ _ _ (firstcase_NoDup virus_df)).
  rewrite <- (pipeline_sql _ _ _ Hrun), map_map. reflexivity.
Qed.

Lemma X11_loaded_census_does_not_duplicate_records_witness :
  exists census_df rows,
    add_state_columns lookup_wy [Census.mkRaw "56" 500000 no_estimates]
    = inr census_df /\
    pipeline with_unknown_code census_df = inr rows /\
    map (fun m => row_key (Metric.sql m)) rows =
      [("WY"%string, d20200310); ("WY"%string, d20200310 + 5)].
Proof.
  eexists. eexists. split; [reflexivity |]. split; [vm_compute; reflexivity |].
  assert (Hnd : NoDup (map Census.raw_state
                         [Census.mkRaw "56" 500000 no_estimates])).
  { constructor; [intros [] | constructor]. }
  assert (Hinj : forall r r' st st',
            In r [Census.mkRaw "56" 500000 no_estimates] ->
            In r' [Census.mkRaw "56" 500000 no_estimates] ->
            lookup_wy (Census.raw_state r) = Some st ->
            lookup_wy (Census.raw_state r') = Some st' ->
            abbr st = abbr st' -> Census.raw_state r = Census.raw_state r').
  { intros r r' st st' [<- | []] [<- | []] _ _ _. reflexivity. }
  destruct (X11_loaded_census_does_not_duplicate_records lookup_wy _ _
              with_unknown_code Hnd Hinj eq_refl) as (_ & Hrows).
  exact (Hrows _ eq_refl).
Defined.

(** ** The renaming of the census columns *)

Lemma column_relabel {A : Type} (f : string -> string) (allowed : list string)
  (frame : list (string * A)) (label : string) :
  (forall k k', In k allowed -> In k' allowed -> f k = f k' -> k = k') ->
  (forall k, In k (map fst frame) -> In k allowed) ->
  In label allowed ->
  column (f label) (map (fun col => (f (fst col), snd col)) frame) =
  column label frame.
Proof.
  intros Hinj Hlabels Hlabel.
  induction frame as [| col frame IH]; simpl.
  - reflexivity.
  - assert (Hcol : In (fst col) allowed) by (apply Hlabels; left; reflexivity).
    destruct (String.eqb_spec (fst col) label) as [Heq | Hne].
    + rewrite Heq, String.eqb_refl. reflexivity.
    + destruct (String.eqb_spec (f (fst col)) (f label)) as [Hf | Hf].
      * elim Hne. apply Hinj; assumption.
      * apply IH. intros k Hk. apply Hlabels. right. exact Hk.
Qed.

Lemma relabel_NoDup {A : Type} (f : string -> string) (allowed : list string)
  (frame : list (string * A)) :
  (forall k k', In k allowed -> In k' allowed -> f k = f k' -> k = k') ->
  (forall k, In k (map fst frame) -> In k allowed) ->
  NoDup (map fst frame) ->
  NoDup (map fst (map (fun col => (f (fst col), snd col)) frame)).
Proof.
  intros Hinj Hlabels Hnd.
  induction frame as [| col frame IH]; simpl.
  - constructor.
  - inversion Hnd as [| x l Hnotin Hnd']; subst. constructor.
    + intros Hin. apply in_map_iff in Hin. destruct Hin as ((k', v') & Hk' & Hin).
      apply in_map_iff in Hin. destruct Hin as (col' & Hcol' & Hin).
      inversion Hcol'; subst. simpl in Hk'. apply Hnotin.
      rewrite (Hinj (fst col) (fst col')).
      * apply in_map. exact Hin.
      * apply Hlabels. left. reflexivity.
      * apply Hlabels. right. apply in_map. exact Hin.
      * symmetry. exact Hk'.
    + apply IH; [| exact Hnd'].
      intros k Hk. apply Hlabels. right. exact Hk.
Qed.

(** The renaming is one-to-one on the labels of a census result. *)
Lemma rename_label_injective (k k' : string) :
  In k census_labels -> In k' census_labels ->
  rename_label variable_names k = rename_label variable_names k' -> k = k'.
Proof.
  assert (H : forallb
            (fun k => forallb
               (fun k' =>
                  implb (String.eqb (rename_label variable_names k)
                                    (rename_label variable_names k'))
                        (String.eqb k k'))
               census_labels)
            census_labels = true) by (vm_compute; reflexivity).
  intros Hk Hk' Heq.
  rewrite forallb_forall in H. specialize (H k Hk).
  rewrite forallb_forall in H. specialize (H k' Hk').
  rewrite Heq, String.eqb_refl in H. simpl in H.
  apply String.eqb_eq. exact H.
Qed.

Lemma rename_label_variable (code name : string) :
  In (code, name) variable_names ->
  In code census_labels /\ rename_label variable_names code = name.
Proof.
  assert (H : forallb
            (fun kv =>
               existsb (String.eqb (fst kv)) census_labels &&
               String.eqb (rename_label variable_names (fst kv)) (snd kv))
            variable_names = true) by (vm_compute; reflexivity).
  intros Hin. rewrite forallb_forall in H. specialize (H _ Hin).
  cbn [fst snd] in H. apply andb_true_iff in H. destruct H as (Hlab & Hren). split.
  - apply existsb_exists in Hlab. destruct Hlab as (l & Hl & Heq).
    apply String.eqb_eq in Heq. subst l. exact Hl.
  - apply String.eqb_eq. exact Hren.
Qed.

Lemma selected_column_source (col : string) :
  In col census_columns_selected ->
  exists code, In (code, col) variable_names.
Proof.
  assert (H : forallb
            (fun col =>
               existsb (fun kv => String.eqb (snd kv) col) variable_names)
            census_columns_selected = true) by (vm_compute; reflexivity).
  intros Hin. rewrite forallb_forall in H. specialize (H _ Hin).
  apply existsb_exists in H. destruct H as ((code, name) & Hkv & Heq).
  apply String.eqb_eq in Heq. simpl in Heq. subst name. exists code. exact Hkv.
Qed.

(** X12. The renaming in [get_census_data], on any census result whose
    labels are distinct and among the requested variables and the
    geography: the renamed labels are distinct, every requested variable
    is found under its readable name with its column unchanged, the
    geography column keeps its label, and when the result has every
    requested variable, every census estimate the [data] query reads is
    there. *)
Theorem X12_renamed_census_columns :
  forall (A : Type) (frame : list (string * A)),
  NoDup (map fst frame) ->
  (forall label, In label (map fst frame) -> In label census_labels) ->
  NoDup (map fst (rename variable_names frame)) /\
  (forall code name, In (code, name) variable_names ->
     column name (rename variable_names frame) = column code frame) /\
  column "state" (rename variable_names frame) = column "state" frame /\
  ((forall code, In code variables -> column code frame <> None) ->
   forall col, In col census_columns_selected ->
     column col (rename variable_names frame) <> None).
Proof.
  intros A frame Hnd Hlabels.
  assert (Hvar : forall code name, In (code, name) variable_names ->
            column name (rename variable_names frame) = column code frame).
  { intros code name Hin.
    destruct (rename_label_variable _ _ Hin) as (Hlab & <-).
    apply (column_relabel _ census_labels);
      [exact rename_label_injective | exact Hlabels | exact Hlab]. }
  split; [| split; [exact Hvar | split]].
  - apply (relabel_NoDup _ census_labels);
      [exact rename_label_injective | exact Hlabels | exact Hnd].
  - apply (column_relabel (rename_label variable_names) census_labels frame
             "state"); [exact rename_label_injective | exact Hlabels |].
    left. reflexivity.
  - intros Hall col Hcol.
    destruct (selected_column_source _ Hcol) as (code & Hkv).
    rewrite (Hvar _ _ Hkv). apply Hall.
    unfold variables. apply (in_map fst) in Hkv. exact Hkv.
Qed.

Lemma X12_renamed_census_columns_witness :
  column "population_total"
    (rename variable_names
       [("B01003_001E"%string, 500000); ("state"%string, 56)]) = Some 500000 /\
  column "state"
    (rename variable_names
       [("B01003_001E"%string, 500000); ("state"%string, 56)]) = Some 56.
Proof.
  assert (Hnd : NoDup (map fst [("B01003_001E"%string, 500000);
                                ("state"%string, 56)])).
  { constructor; [intros [H | []]; discriminate H |].
    constructor; [intros [] | constructor]. }
  assert (Hlabels : forall label,
            In label (map fst [("B01003_001E"%string, 500000);
                               ("state"%string, 56)]) ->
            In label census_labels).
  { intros label [<- | [<- | []]]; vm_compute; auto. }
  destruct (X12_renamed_census_columns Z _ Hnd Hlabels) as (_ & Hvar & Hstate & _).
  split.
  - rewrite (Hvar "B01003_001E"%string "population_total"%string);
      [reflexivity | left; reflexivity].
  - rewrite Hstate. reflexivity.
Defined.

(** ** The order of the input rows *)

Lemma flat_map_perm_pointwise {A B : Type} (f g : A -> list B) (l : list A) :
  (forall a, Permutation (f a) (g a)) ->
  Permutation (flat_map f l) (flat_map g l).
Proof.
  intros Hfg. induction l as [| a l IH]; simpl.
  - constructor.
  - apply Permutation_app; [apply Hfg | exact IH].
Qed.

Lemma filter_perm {A : Type} (p : A -> bool) (l l' : list A) :
  Permutation l l' -> Permutation (filter p l) (filter p l').
Proof.
  induction 1 as [| x l l' _ IH | x y l | l l' l'' _ IH1 _ IH2]; simpl.
  - constructor.
  - destruct (p x); [constructor |]; exact IH.
  - destruct (p x), (p y); try constructor; apply Permutation_refl.
  - exact (Permutation_trans IH1 IH2).
Qed.

Lemma inner_join_perm (virus_df virus_df' : list Virus.row)
  (census_df census_df' : list Census.row) :
  Permutation virus_df virus_df' -> Permutation census_df census_df' ->
  Permutation (inner_join virus_df census_df)
              (inner_join virus_df' census_df').
Proof.
  intros Hv Hc. unfold inner_join.
  apply (Permutation_trans
           (l' := flat_map
                    (fun s =>
                       map (fun c => (s, c))
                         (filter (fun c => String.eqb (Virus.state s)
                                             (Census.state_cd c))
                            census_df'))
                    virus_df)).
  - apply flat_map_perm_pointwise. intros s.
    apply Permutation_map, filter_perm. exact Hc.
  - apply Permutation_flat_map. exact Hv.
Qed.

Lemma data_sql_perm (virus_df virus_df' : list Virus.row)
  (census_df census_df' : list Census.row) :
  Permutation virus_df virus_df' -> Permutation census_df census_df' ->
  Permutation (data_sql virus_df census_df (firstcase virus_df))
              (data_sql virus_df' census_df' (firstcase virus_df')).
Proof.
  intros Hv Hc. unfold data_sql, from_joins.
  rewrite !left_join_attach by apply firstcase_NoDup.
  rewrite !map_map.
  rewrite (map_ext (fun p => select (attach (firstcase virus_df') p))
                   (fun p => select (attach (firstcase virus_df) p))).
  - apply Permutation_map, inner_join_perm; assumption.
  - intros p. unfold attach.
    rewrite (first_obs_firstcase_perm _ _ _ Hv). reflexivity.
Qed.

(** A column operation that succeeds on a table succeeds on any
    rearrangement of it, with the rearranged result. *)
Lemma mapM_perm {A B : Type} (f : A -> Result B) (l l' : list A) :
  Permutation l l' ->
  forall bs, mapM f l = inr bs ->
  exists bs', mapM f l' = inr bs' /\ Permutation bs bs'.
Proof.
  induction 1 as [| x l l' _ IH | x y l | l l' l'' _ IH1 _ IH2]; intros bs H.
  - exists bs. split; [exact H | apply Permutation_refl].
  - simpl in H. apply bind_inr in H. destruct H as (b & Hb & H).
    apply bind_inr in H. destruct H as (bs0 & Hbs0 & H).
    inversion H; subst bs.
    destruct (IH _ Hbs0) as (bs0' & Hbs0' & Hperm).
    exists (b :: bs0'). split.
    + simpl. rewrite Hb. simpl. rewrite Hbs0'. reflexivity.
    + constructor. exact Hperm.
  - simpl in H. apply bind_inr in H. destruct H as (b1 & Hb1 & H).
    apply bind_inr in H. destruct H as (bs1 & Hbs1 & H).
    inversion H; subst bs.
    apply bind_inr in Hbs1. destruct Hbs1 as (b2 & Hb2 & H1).
    apply bind_inr in H1. destruct H1 as (bs0 & Hbs0 & H1).
    inversion H1; subst bs1.
    exists (b2 :: b1 :: bs0). split.
    + simpl. rewrite Hb2. simpl. rewrite Hb1. simpl. rewrite Hbs0. reflexivity.
    + apply perm_swap.
  - destruct (IH1 _ H) as (bs' & Hbs' & Hp1).
    destruct (IH2 _ Hbs') as (bs'' & Hbs'' & Hp2).
    exists bs''. split; [exact Hbs'' | exact (Permutation_trans Hp1 Hp2)].
Qed.

Lemma pipeline_perm_inr (virus_df virus_df' : list Virus.row)
  (census_df census_df' : list Census.row) (rows : list Metric.row) :
  Permutation virus_df virus_df' -> Permutation census_df census_df' ->
  pipeline virus_df census_df = inr rows ->
  exists rows', pipeline virus_df' census_df' = inr rows' /\
                Permutation rows rows'.
Proof.
  intros Hv Hc Hrun. unfold pipeline, metric_cells in *.
  exact (mapM_perm _ _ _ (data_sql_perm _ _ _ _ Hv Hc) _ Hrun).
Qed.

(** X13. The order of the rows of the two loaded tables does not matter
    beyond the order of the result: on rearranged case and census tables
    the cells return the same finished rows, rearranged, and they raise on
    the one exactly when they raise on the other, with the same
    exception. *)
Theorem X13_result_up_to_row_order :
  forall (virus_df virus_df' : list Virus.row)
         (census_df census_df' : list Census.row),
  Permutation virus_df virus_df' -> Permutation census_df census_df' ->
  (forall rows, pipeline virus_df census_df = inr rows ->
     exists rows', pipeline virus_df' census_df' = inr rows' /\
                   Permutation rows rows') /\
  (forall e, pipeline virus_df census_df = inl e ->
             pipeline virus_df' census_df' = inl e).
Proof.
  intros virus_df virus_df' census_df census_df' Hv Hc. split.
  - intros rows Hrun. exact (pipeline_perm_inr _ _ _ _ _ Hv Hc Hrun).
  - intros e Hrun.
    destruct (pipeline virus_df' census_df') as [e' | rows'] eqn:Hrun'.
    + apply pipeline_inl in Hrun. apply pipeline_inl in Hrun'.
      destruct Hrun as (-> & _). destruct Hrun' as (-> & _). reflexivity.
    + destruct (pipeline_perm_inr _ _ _ _ _ (Permutation_sym Hv)
                  (Permutation_sym Hc) Hrun') as (rows & Hrows & _).
      congruence.
Qed.

Lemma X13_result_up_to_row_order_witness :
  exists rows rows',
    pipeline two_reports [wyoming] = inr rows /\
    pipeline (rev two_reports) [wyoming] = inr rows' /\
    Permutation rows rows'.
Proof.
  destruct (X13_result_up_to_row_order two_reports (rev two_reports)
              [wyoming] [wyoming] (Permutation_rev _) (Permutation_refl _))
    as (Hrows & _).
  eexists. 
  destruct (Hrows _ eq_refl) as (rows' & Hrun' & Hperm).
  exists rows'. split; [reflexivity |]. split; [exact Hrun' | exact Hperm].
Defined.
